(** * SECS-II / HSMS library: shallow embedding and verified properties

    The Go packages [ast] (data items, data messages, HSMS control messages)
    and [parser/hsms] (the HSMS byte decoder) are embedded below.

    Conventions of the embedding:
    - a Go [int] (64 bit), [byte] or fixed-width integer is a [Z]; every
      narrowing conversion is written out ([byte], [wrap_int64], [uint64]);
    - a Go [string] is a [string] whose characters are its bytes; [range]
      over a string decodes UTF-8 ([runes]);
    - a Go [map[string]T] is a [gmap string T]; iteration over a map is a
      fold over [map_to_list] (Go leaves the order unspecified);
    - a [panic] is the [Panic] outcome of the [result] monad;
    - an [interface{}] value is a value of the tagged union [any];
    - an IEEE-754 float is represented by its bit pattern. *)

From Stdlib Require Import ZArith Lia Ascii String.
From stdpp Require Import gmap strings list fin_maps sorting pretty.

Local Open Scope Z_scope.

(** ** Outcomes of Go calls *)

Inductive result (A : Type) : Type :=
| Ok (a : A)
| Panic
| OutOfFuel.
Arguments Ok {A} a.
Arguments Panic {A}.
Arguments OutOfFuel {A}.

Definition result_bind {A B} (f : A → result B) (r : result A) : result B :=
  match r with
  | Ok a => f a
  | Panic => Panic
  | OutOfFuel => OutOfFuel
  end.

Definition result_map {A B} (f : A → B) (r : result A) : result B :=
  match r with
  | Ok a => Ok (f a)
  | Panic => Panic
  | OutOfFuel => OutOfFuel
  end.

Global Instance result_ret : MRet result := @Ok.
Global Instance result_mbind : MBind result := @result_bind.
Global Instance result_fmap : FMap result := @result_map.

Definition guard_panic (b : bool) : result unit :=
  if b then Panic else Ok ().

(** ** Machine integers, bytes and strings *)

Definition byte (z : Z) : Z := z `mod` 256.
Definition uint16 (z : Z) : Z := z `mod` 2 ^ 16.
Definition uint32 (z : Z) : Z := z `mod` 2 ^ 32.
Definition uint64 (z : Z) : Z := z `mod` 2 ^ 64.

Definition wrap_signed (bits : Z) (z : Z) : Z :=
  (z + 2 ^ (bits - 1)) `mod` 2 ^ bits - 2 ^ (bits - 1).
Definition wrap_int8 : Z → Z := wrap_signed 8.
Definition wrap_int16 : Z → Z := wrap_signed 16.
Definition wrap_int32 : Z → Z := wrap_signed 32.
Definition wrap_int64 : Z → Z := wrap_signed 64.

Definition MaxInt64 : Z := 2 ^ 63 - 1.

(** [binary.BigEndian.UintNN] on a slice that has exactly the bytes read. *)
Definition BigEndian (bs : list Z) : Z :=
  foldl (λ acc b, acc * 256 + b) 0 bs.

Definition ascii_code (a : ascii) : Z := Z.of_N (N_of_ascii a).
Definition code_ascii (z : Z) : ascii := ascii_of_N (Z.to_N (z `mod` 256)).

Fixpoint string_bytes (s : string) : list Z :=
  match s with
  | EmptyString => []
  | String a s' => ascii_code a :: string_bytes s'
  end.

Fixpoint bytes_string (bs : list Z) : string :=
  match bs with
  | [] => EmptyString
  | b :: bs' => String (code_ascii b) (bytes_string bs')
  end.

(** [len(s)] of a Go string: its number of bytes. *)
Definition len_string (s : string) : Z := Z.of_nat (String.length s).

Definition RuneError : Z := 65533.

Definition is_cont (b : Z) : bool := bool_decide (128 ≤ b ≤ 191).

(** UTF-8 decoding as performed by [for _, ch := range s]: an invalid
    byte yields [RuneError] and advances by one byte. *)
Fixpoint runes (bs : list Z) : list Z :=
  match bs with
  | [] => []
  | b0 :: r0 =>
    if bool_decide (b0 < 128) then b0 :: runes r0
    else
      match r0 with
      | b1 :: r1 =>
        if bool_decide (194 ≤ b0 ≤ 223) && is_cont b1 then
          ((b0 - 192) * 64 + (b1 - 128)) :: runes r1
        else
          match r1 with
          | b2 :: r2 =>
            if bool_decide (224 ≤ b0 ≤ 239)
               && bool_decide ((if bool_decide (b0 = 224) then 160 else 128) ≤ b1
                               ≤ (if bool_decide (b0 = 237) then 159 else 191))
               && is_cont b2 then
              ((b0 - 224) * 4096 + (b1 - 128) * 64 + (b2 - 128)) :: runes r2
            else
              match r2 with
              | b3 :: r3 =>
                if bool_decide (240 ≤ b0 ≤ 244)
                   && bool_decide ((if bool_decide (b0 = 240) then 144 else 128) ≤ b1
                                   ≤ (if bool_decide (b0 = 244) then 143 else 191))
                   && is_cont b2 && is_cont b3 then
                  ((b0 - 240) * 262144 + (b1 - 128) * 4096
                   + (b2 - 128) * 64 + (b3 - 128)) :: runes r3
                else RuneError :: runes r0
              | [] => RuneError :: runes r0
              end
          | [] => RuneError :: runes r0
          end
      | [] => [RuneError]
      end
  end.

(** ** IEEE-754 values as bit patterns

    A [float64] is the 64-bit pattern [math.Float64bits] returns, a
    [float32] the 32-bit pattern of [math.Float32bits]; so both functions
    and their inverses are the identity on the representation. *)

Definition f64_exp (b : Z) : Z := (b ≫ 52) `mod` 2048.
Definition f64_mant (b : Z) : Z := b `mod` 2 ^ 52.
Definition f64_sign (b : Z) : Z := (b ≫ 63) `mod` 2.

Definition IsNaN (b : Z) : bool :=
  bool_decide (f64_exp b = 2047) && negb (bool_decide (f64_mant b = 0)).
Definition IsInf (b : Z) : bool :=
  bool_decide (f64_exp b = 2047) && bool_decide (f64_mant b = 0).

(** Order key of a non-NaN float: sign and magnitude. *)
Definition f64_key (b : Z) : Z :=
  if bool_decide (f64_sign b = 1) then - (b `mod` 2 ^ 63) else b `mod` 2 ^ 63.
Definition f64_le (a b : Z) : bool :=
  negb (IsNaN a) && negb (IsNaN b) && bool_decide (f64_key a ≤ f64_key b).
Definition f64_neg (b : Z) : Z := Z.lxor b (2 ^ 63).
(** [v != 0] on floats: both zeros compare equal to 0, NaN does not. *)
Definition f64_is_zero (b : Z) : bool := bool_decide (b `mod` 2 ^ 63 = 0).

Definition MaxFloat64 : Z := 0x7FEFFFFFFFFFFFFF.
(** [math.MaxFloat32] as a [float64]. *)
Definition MaxFloat32 : Z := 0x47EFFFFFE0000000.

(** Shift right by [sh] bits, rounding to nearest, ties to even. *)
Definition round_shift (m sh : Z) : Z :=
  if bool_decide (sh ≤ 0) then m ≪ (- sh)
  else
    let q := m ≫ sh in
    let r := m `mod` 2 ^ sh in
    let half := 2 ^ (sh - 1) in
    if bool_decide (half < r) || (bool_decide (r = half) && Z.odd q)
    then q + 1 else q.

(** [float64(x)] for a [float32] [x]: exact. *)
Definition float64_of_float32 (b : Z) : Z :=
  let s := (b ≫ 31) `mod` 2 in
  let e := (b ≫ 23) `mod` 256 in
  let m := b `mod` 2 ^ 23 in
  s ≪ 63 +
  (if bool_decide (e = 255) then 2047 ≪ 52 + m ≪ 29
   else if bool_decide (e = 0) then
     if bool_decide (m = 0) then 0
     else let k := Z.log2 m in
          (k - 149 + 1023) ≪ 52 + (m - 2 ^ k) ≪ (52 - k)
   else (e - 127 + 1023) ≪ 52 + m ≪ 29).

(** [float32(x)] for a [float64] [x]: rounds to nearest even, overflows
    to infinity. *)
Definition float32_of_float64 (b : Z) : Z :=
  let s := f64_sign b in
  let e := f64_exp b in
  let m := f64_mant b in
  s ≪ 31 +
  (if bool_decide (e = 2047) then
     255 ≪ 23 + (if bool_decide (m = 0) then 0 else 2 ^ 22 + m ≫ 29)
   else if bool_decide (e = 0) then 0
   else
     let E := e - 1023 in
     let M := 2 ^ 52 + m in
     if bool_decide (E < -126) then round_shift M (-97 - E)
     else
       let r := (E + 127) ≪ 23 + (round_shift M 29 - 2 ^ 23) in
       if bool_decide (255 ≪ 23 ≤ r) then 255 ≪ 23 else r).

(** [float64(x)] for an integer [x]: rounds to nearest even. *)
Definition float64_of_int (z : Z) : Z :=
  let n := Z.abs z in
  if bool_decide (n = 0) then 0
  else
    let k := Z.log2 n in
    (if bool_decide (z < 0) then 1 else 0) ≪ 63
    + (k + 1023) ≪ 52 + (round_shift n (k - 52) - 2 ^ 52).

(** ** Data items (package [ast])

    [ItemNode] is the interface implemented by the item types; its
    implementations are the constructors below, each carrying the fields
    of the Go struct of the same name. *)

Record asciiNodeVariable : Type := mkAsciiNodeVariable {
  name : string;
  minLength : Z;
  maxLength : Z;
}.

Local Unset Elimination Schemes.
Inductive ItemNode : Type :=
| emptyItemNode
| ListNode (values : list ItemNode) (variables : gmap string nat)
| ASCIINode (value : string) (variable : asciiNodeVariable) (isValue : bool)
| BinaryNode (values : list Z) (variables : gmap string nat)
| BooleanNode (values : list bool) (variables : gmap string nat)
| FloatNode (byteSize : Z) (values : list Z) (variables : gmap string nat)
| IntNode (byteSize : Z) (values : list Z) (variables : gmap string nat)
| UintNode (byteSize : Z) (values : list Z) (variables : gmap string nat).
Local Set Elimination Schemes.

(** The dynamic types an [interface{}] argument can carry. *)
Inductive intType : Type :=
| Tint | Tint8 | Tint16 | Tint32 | Tint64
| Tuint | Tuint8 | Tuint16 | Tuint32 | Tuint64.

Inductive any : Type :=
| AInt (t : intType) (v : Z)
| AFloat32 (bits : Z)
| AFloat64 (bits : Z)
| ABool (b : bool)
| AString (s : string)
| AItem (n : ItemNode)
| AOther.

Definition MAX_BYTE_SIZE : Z := 1 ≪ 24 - 1.

Definition NewEmptyItemNode : ItemNode := emptyItemNode.

Definition is_emptyItemNode (n : ItemNode) : bool :=
  match n with emptyItemNode => true | _ => false end.

Definition is_ListNode (n : ItemNode) : bool :=
  match n with ListNode _ _ => true | _ => false end.

(** *** Variable names *)

Definition is_digit (c : Z) : bool := bool_decide (48 ≤ c ≤ 57).
Definition is_letter_ (c : Z) : bool :=
  bool_decide (65 ≤ c ≤ 90) || bool_decide (97 ≤ c ≤ 122) || bool_decide (c = 95).
Definition is_word (c : Z) : bool := is_letter_ c || is_digit c.

Inductive tagState : Type := TagOpen | TagFirstDigit | TagDigits.

(** Matches [(\[\d+\])*$]. *)
Fixpoint match_tags (st : tagState) (bs : list Z) : bool :=
  match bs with
  | [] => match st with TagOpen => true | _ => false end
  | c :: r =>
    match st with
    | TagOpen => bool_decide (c = 91) && match_tags TagFirstDigit r
    | TagFirstDigit => is_digit c && match_tags TagDigits r
    | TagDigits =>
      if is_digit c then match_tags TagDigits r
      else bool_decide (c = 93) && match_tags TagOpen r
    end
  end.

(** Matches [\w*(\[\d+\])*$]. *)
Fixpoint match_word_tags (bs : list Z) : bool :=
  match bs with
  | [] => true
  | c :: r => if is_word c then match_word_tags r else match_tags TagOpen bs
  end.

(** [regexp.MustCompile(`^[A-Za-z_]\w*(\[\d+\])*$`).MatchString(name)] *)
Definition isValidVarName (name : string) : bool :=
  match string_bytes name with
  | c :: r => is_letter_ c && match_word_tags r
  | [] => false
  end.

(** Matches [\d*\]$]. *)
Fixpoint match_digits_close (bs : list Z) : bool :=
  match bs with
  | [] => false
  | c :: r =>
    if is_digit c then match_digits_close r
    else bool_decide (c = 93) && bool_decide (r = [])
  end.

(** [regexp.MustCompile(`^\.{3}(\[\d+\])?$`).MatchString(name)] *)
Definition isEllipsis (name : string) : bool :=
  let bs := string_bytes name in
  bool_decide (take 3 bs = [46; 46; 46])
  && match drop 3 bs with
     | [] => true
     | c :: d :: r => bool_decide (c = 91) && is_digit d && match_digits_close r
     | _ => false
     end.

(** [getVariableNames]: the names sorted by their positions. *)
Definition position_le (a b : string * nat) : Prop := (a.2 ≤ b.2)%nat.
Global Instance position_le_dec a b : Decision (position_le a b) :=
  decide (a.2 ≤ b.2)%nat.

Definition getVariableNames (variablePosition : gmap string nat) : list string :=
  (merge_sort position_le (map_to_list variablePosition)).*1.

Definition bytePerValue : gmap string Z :=
  list_to_map
    [("list", 1); ("binary", 1); ("boolean", 1); ("ascii", 1);
     ("i8", 8); ("i1", 1); ("i2", 2); ("i4", 4);
     ("f8", 8); ("f4", 4);
     ("u8", 8); ("u1", 1); ("u2", 2); ("u4", 4)].

Definition getDataByteLength (typ : string) (size : Z) : Z :=
  size * default 0 (bytePerValue !! typ).

(** The format codes, octal in the source: 0o00, 0o10, 0o11, 0o20, 0o30,
    0o31, 0o32, 0o34, 0o40, 0o44, 0o50, 0o51, 0o52, 0o54. *)
Definition formatCode : gmap string Z :=
  list_to_map
    [("list", 0); ("binary", 8); ("boolean", 9); ("ascii", 16);
     ("i8", 24); ("i1", 25); ("i2", 26); ("i4", 28);
     ("f8", 32); ("f4", 36);
     ("u8", 40); ("u1", 41); ("u2", 42); ("u4", 44)].

(** [getHeaderBytes]: format byte and length bytes; [None] is the error
    return. *)
Definition getHeaderBytes (typ : string) (size : Z) : option (list Z) :=
  let dataByteLength := getDataByteLength typ size in
  if bool_decide (dataByteLength > MAX_BYTE_SIZE) then None
  else
    let lengthBytes :=
      [byte (dataByteLength ≫ 16); byte (dataByteLength ≫ 8); byte dataByteLength] in
    let lengthBytes :=
      if bool_decide (lengthBytes !! 0%nat = Some 0) then
        if bool_decide (lengthBytes !! 1%nat = Some 0) then drop 2 lengthBytes
        else drop 1 lengthBytes
      else lengthBytes in
    Some (byte (default 0 (formatCode !! typ) ≪ 2 + Z.of_nat (length lengthBytes))
          :: lengthBytes).

(** *** Observers *)

(** [Size()] *)
Definition Size (node : ItemNode) : Z :=
  match node with
  | emptyItemNode => 0
  | ListNode values _ => Z.of_nat (length values)
  | ASCIINode value _ isValue => if isValue then len_string value else -1
  | BinaryNode values _ => Z.of_nat (length values)
  | BooleanNode values _ => Z.of_nat (length values)
  | FloatNode _ values _ => Z.of_nat (length values)
  | IntNode _ values _ => Z.of_nat (length values)
  | UintNode _ values _ => Z.of_nat (length values)
  end.

(** [ListNode.variablesSwapKeyValue] *)
Definition variablesSwapKeyValue (variables : gmap string nat) : gmap nat string :=
  foldl (λ result kv, <[kv.2 := kv.1]> result) ∅ (map_to_list variables).

(** The loop of [ListNode.Variables]; [rec] is [Variables] on a child. *)
Definition ListNode_Variables (rec : ItemNode → list string)
    (posVar : gmap nat string) : nat → list ItemNode → list string :=
  fix go (i : nat) (items : list ItemNode) : list string :=
    match items with
    | [] => []
    | item :: rest =>
      (if is_emptyItemNode item then [default EmptyString (posVar !! i)] else rec item)
      ++ go (S i) rest
    end.

(** [Variables()] *)
Fixpoint Variables (node : ItemNode) : list string :=
  match node with
  | emptyItemNode => []
  | ListNode values variables =>
    ListNode_Variables Variables (variablesSwapKeyValue variables) 0%nat values
  | ASCIINode value variable isValue => if isValue then [] else [name variable]
  | BinaryNode _ variables => getVariableNames variables
  | BooleanNode _ variables => getVariableNames variables
  | FloatNode _ _ variables => getVariableNames variables
  | IntNode _ _ variables => getVariableNames variables
  | UintNode _ _ variables => getVariableNames variables
  end.

(** [for i := byteSize - 1; i >= 0; i-- { byte(bits >> (i*8)) }] *)
Definition bigEndianBytes (byteSize : Z) (bits : Z) : list Z :=
  (λ i, byte (bits ≫ (i * 8))) <$> reverse (seqZ 0 byteSize).

(** The loop of [ListNode.ToBytes]; [rec] is [ToBytes] on a child. *)
Definition ListNode_ToBytes (rec : ItemNode → list Z) : list Z → list ItemNode → list Z :=
  fix go (result : list Z) (items : list ItemNode) : list Z :=
    match items with
    | [] => result
    | item :: rest =>
      let childResult := rec item in
      if bool_decide (length childResult = 0%nat) then []
      else go (result ++ childResult) rest
    end.

(** [len(node.variables) != 0] *)
Definition has_variables (variables : gmap string nat) : bool :=
  negb (bool_decide (size variables = 0%nat)).

(** [ToBytes()] *)
Fixpoint ToBytes (node : ItemNode) : list Z :=
  match node with
  | emptyItemNode => []
  | ListNode values variables =>
    if has_variables variables then []
    else
      match getHeaderBytes "list" (Size node) with
      | None => []
      | Some result => ListNode_ToBytes ToBytes result values
      end
  | ASCIINode value variable isValue =>
    if negb isValue then []
    else
      match getHeaderBytes "ascii" (Size node) with
      | None => []
      | Some result => result ++ (byte <$> runes (string_bytes value))
      end
  | BinaryNode values variables =>
    if has_variables variables then []
    else
      match getHeaderBytes "binary" (Size node) with
      | None => []
      | Some result => result ++ (byte <$> values)
      end
  | BooleanNode values variables =>
    if has_variables variables then []
    else
      match getHeaderBytes "boolean" (Size node) with
      | None => []
      | Some result => result ++ ((λ value : bool, if value then 1 else 0) <$> values)
      end
  | FloatNode byteSize values variables =>
    if has_variables variables then []
    else
      match getHeaderBytes ("f" +:+ pretty byteSize) (Size node) with
      | None => []
      | Some result =>
        if bool_decide (byteSize = 4) then
          result ++ (values ≫= λ value, bigEndianBytes 4 (float32_of_float64 value))
        else
          result ++ (values ≫= λ value, bigEndianBytes 8 value)
      end
  | IntNode byteSize values variables =>
    if has_variables variables then []
    else
      match getHeaderBytes ("i" +:+ pretty byteSize) (Size node) with
      | None => []
      | Some result =>
        result ++ (values ≫= λ value, bigEndianBytes byteSize (uint64 value))
      end
  | UintNode byteSize values variables =>
    if has_variables variables then []
    else
      match getHeaderBytes ("u" +:+ pretty byteSize) (Size node) with
      | None => []
      | Some result =>
        result ++ (values ≫= λ value, bigEndianBytes byteSize value)
      end
  end.

(** *** Factory methods *)

(** How a factory method reads one [interface{}] argument: as a data
    value or as the name of a variable. *)
Inductive slot (T : Type) : Type :=
| SValue (t : T)
| SVariable (v : string).
Arguments SValue {T} t.
Arguments SVariable {T} v.

(** The [for i, value := range values] loop shared by the factory
    methods: [classify] is the type switch of the method, [zero] the
    zero-value stored at the position of a variable. *)
Definition collect {T : Type} (classify : any → result (slot T)) (zero : T)
    : nat → list any → list T → gmap string nat → result (list T * gmap string nat) :=
  fix go (i : nat) (values : list any) (nodeValues : list T)
         (nodeVariables : gmap string nat) :=
    match values with
    | [] => Ok (nodeValues, nodeVariables)
    | value :: rest =>
      s ← classify value;
      match s with
      | SValue v => go (S i) rest (nodeValues ++ [v]) nodeVariables
      | SVariable v =>
        if bool_decide (is_Some (nodeVariables !! v)) then Panic
        else go (S i) rest (nodeValues ++ [zero]) (<[v := i]> nodeVariables)
      end
    end.

(** The [for name, pos := range node.variables] loop of the [checkRep]
    methods of the item types other than list and ASCII; [true] when no
    check panics. *)
Fixpoint checkVariables {T : Type} (isZero : T → bool) (values : list T)
    (entries : list (string * nat)) (visited : gset nat) : bool :=
  match entries with
  | [] => true
  | (name, pos) :: rest =>
    match values !! pos with
    | None => false
    | Some v =>
      isZero v
      && isValidVarName name
      && negb (bool_decide (pos ∈ visited))
      && bool_decide (0 ≤ Z.of_nat pos < Z.of_nat (length values))
      && checkVariables isZero values rest ({[pos]} ∪ visited)
    end
  end.

Definition isZeroZ (v : Z) : bool := bool_decide (v = 0).

(** [IntNode.checkRep]; the bounds are computed in [int64]. *)
Definition IntNode_checkRep (byteSize : Z) (values : list Z)
    (variables : gmap string nat) : bool :=
  bool_decide (byteSize = 1 ∨ byteSize = 2 ∨ byteSize = 4 ∨ byteSize = 8)
  && (let max := wrap_int64 (wrap_int64 (1 ≪ (byteSize * 8 - 1)) - 1) in
      let min := wrap_int64 (-1 ≪ (byteSize * 8 - 1)) in
      forallb (λ v, bool_decide (min ≤ v ∧ v ≤ max)) values)
  && checkVariables isZeroZ values (map_to_list variables) ∅.

(** [UintNode.checkRep]; the bound is computed in [uint64]. *)
Definition UintNode_checkRep (byteSize : Z) (values : list Z)
    (variables : gmap string nat) : bool :=
  bool_decide (byteSize = 1 ∨ byteSize = 2 ∨ byteSize = 4 ∨ byteSize = 8)
  && forallb (λ v, bool_decide (v ≤ uint64 (uint64 (1 ≪ (byteSize * 8)) - 1))) values
  && checkVariables isZeroZ values (map_to_list variables) ∅.

(** [FloatNode.checkRep] *)
Definition FloatNode_checkRep (byteSize : Z) (values : list Z)
    (variables : gmap string nat) : bool :=
  bool_decide (byteSize = 4 ∨ byteSize = 8)
  && (let max := if bool_decide (byteSize = 4) then MaxFloat32 else MaxFloat64 in
      forallb (λ v, negb (IsInf v || IsNaN v)
                    && (f64_le (f64_neg max) v && f64_le v max)) values)
  && checkVariables f64_is_zero values (map_to_list variables) ∅.

(** [BinaryNode.checkRep] *)
Definition BinaryNode_checkRep (values : list Z) (variables : gmap string nat) : bool :=
  forallb (λ v, bool_decide (0 ≤ v ∧ v < 256)) values
  && checkVariables isZeroZ values (map_to_list variables) ∅.

(** [BooleanNode.checkRep] *)
Definition BooleanNode_checkRep (values : list bool) (variables : gmap string nat) : bool :=
  checkVariables negb values (map_to_list variables) ∅.

(** The first loop of [ListNode.checkRep]. *)
Fixpoint ListNode_checkVariables (values : list ItemNode)
    (entries : list (string * nat)) (ellipsisExist : bool) (visitedIndex : gset nat) : bool :=
  match entries with
  | [] => true
  | (name, pos) :: rest =>
    match values !! pos with
    | None => false
    | Some v =>
      is_emptyItemNode v
      && (if isValidVarName name then true
          else if isEllipsis name then
            negb (bool_decide (pos = 0%nat)) && negb ellipsisExist
          else false)
      && negb (bool_decide (pos ∈ visitedIndex))
      && bool_decide (0 ≤ Z.of_nat pos < Z.of_nat (length values))
      && ListNode_checkVariables values rest
           (ellipsisExist || (negb (isValidVarName name) && isEllipsis name))
           ({[pos]} ∪ visitedIndex)
    end
  end.

(** The second loop of [ListNode.checkRep]: no name is found twice. *)
Fixpoint noDuplicatedVariable (variables : list string) (foundVarName : gset string) : bool :=
  match variables with
  | [] => true
  | v :: rest =>
    negb (bool_decide (v ∈ foundVarName))
    && noDuplicatedVariable rest ({[v]} ∪ foundVarName)
  end.

(** [ListNode.checkRep] *)
Definition ListNode_checkRep (values : list ItemNode) (variables : gmap string nat) : bool :=
  ListNode_checkVariables values (map_to_list variables) false ∅
  && noDuplicatedVariable (Variables (ListNode values variables)) ∅.

(** [ASCIINode.checkRep] *)
Definition ASCIINode_checkRep (value : string) (variable : asciiNodeVariable)
    (isValue : bool) : bool :=
  if isValue then
    negb (negb (bool_decide (name variable = "")) || negb (bool_decide (minLength variable = 0))
          || negb (bool_decide (maxLength variable = 0)))
    && forallb (λ ch, negb (bool_decide (ch > 127))) (runes (string_bytes value))
  else
    negb (negb (bool_decide (value = "")))
    && isValidVarName (name variable)
    && negb (bool_decide (minLength variable < 0) || bool_decide (maxLength variable < -1))
    && (if negb (bool_decide (maxLength variable = -1))
        then negb (bool_decide (minLength variable > maxLength variable))
        else true).

(** The type switches of the factory methods. *)

Definition classifyInt (value : any) : result (slot Z) :=
  match value with
  | AInt Tuint64 v => if bool_decide (v > MaxInt64) then Panic else Ok (SValue (wrap_int64 v))
  | AInt _ v => Ok (SValue (wrap_int64 v))
  | AString s => Ok (SVariable s)
  | _ => Panic
  end.

Definition classifyUint (value : any) : result (slot Z) :=
  match value with
  | AInt _ v => Ok (SValue (uint64 v))
  | AString s => Ok (SVariable s)
  | _ => Panic
  end.

Definition classifyFloat (value : any) : result (slot Z) :=
  match value with
  | AInt _ v => Ok (SValue (float64_of_int v))
  | AFloat32 b => Ok (SValue (float64_of_float32 b))
  | AFloat64 b => Ok (SValue b)
  | AString s => Ok (SVariable s)
  | _ => Panic
  end.

(** The digit loop of [strconv.ParseUint] in base 2 with underscores
    allowed: [None] is a syntax error; a range error stops the loop with
    the maximal value. *)
Fixpoint parseBits (n : Z) (digits : list Z) : option Z :=
  match digits with
  | [] => Some n
  | c :: r =>
    if bool_decide (c = 95) then parseBits n r
    else if bool_decide (c = 48 ∨ c = 49) then
      if bool_decide (2 ^ 63 ≤ n) then Some (2 ^ 64 - 1)
      else parseBits (n * 2 + (c - 48)) r
    else None
  end.

(** [strconv.underscoreOK] after a base prefix, for a non-hexadecimal
    literal; [i] is the kind of the previous character. *)
Inductive prevChar : Type := PrevDigit | PrevUnderscore | PrevOther.

Fixpoint underscoreOK (i : prevChar) (s : list Z) : bool :=
  match s with
  | [] => match i with PrevUnderscore => false | _ => true end
  | c :: r =>
    if is_digit c then underscoreOK PrevDigit r
    else if bool_decide (c = 95) then
      match i with PrevDigit => underscoreOK PrevUnderscore r | _ => false end
    else
      match i with PrevUnderscore => false | _ => underscoreOK PrevOther r end
  end.

(** [vAsInt64, _ := strconv.ParseInt(v, 0, 0)] for a [v] with prefix
    ["0b"]: the error is dropped, a syntax error leaves 0 and a range
    error the maximal [int64]. *)
Definition ParseInt_0b (v : string) : Z :=
  let s := drop 2 (string_bytes v) in
  match s with
  | [] => 0
  | _ =>
    match parseBits 0 s with
    | None => 0
    | Some un =>
      if bool_decide (un = 2 ^ 64 - 1) then MaxInt64
      else if bool_decide (95 ∈ s) && negb (underscoreOK PrevDigit s) then 0
      else if bool_decide (2 ^ 63 ≤ un) then MaxInt64
      else un
    end
  end.

Definition classifyBinary (value : any) : result (slot Z) :=
  match value with
  | AInt Tint v => Ok (SValue v)
  | AString v =>
    if bool_decide (take 2 (string_bytes v) = [48; 98])
    then Ok (SValue (ParseInt_0b v))
    else Ok (SVariable v)
  | _ => Panic
  end.

Definition classifyBoolean (value : any) : result (slot bool) :=
  match value with
  | ABool v => Ok (SValue v)
  | AString v => Ok (SVariable v)
  | _ => Panic
  end.

Definition classifyList (value : any) : result (slot ItemNode) :=
  match value with
  | AItem v => Ok (SValue v)
  | AString v => Ok (SVariable v)
  | _ => Panic
  end.

Definition len_any (values : list any) : Z := Z.of_nat (length values).

(** [NewIntNode] *)
Definition NewIntNode (byteSize : Z) (values : list any) : result ItemNode :=
  if bool_decide (getDataByteLength ("i" +:+ pretty byteSize) (len_any values) > MAX_BYTE_SIZE)
  then Panic
  else
    '(nodeValues, nodeVariables) ← collect classifyInt 0 0%nat values [] ∅;
    if IntNode_checkRep byteSize nodeValues nodeVariables
    then Ok (IntNode byteSize nodeValues nodeVariables) else Panic.

(** [NewUintNode] *)
Definition NewUintNode (byteSize : Z) (values : list any) : result ItemNode :=
  if bool_decide (getDataByteLength ("u" +:+ pretty byteSize) (len_any values) > MAX_BYTE_SIZE)
  then Panic
  else
    '(nodeValues, nodeVariables) ← collect classifyUint 0 0%nat values [] ∅;
    if UintNode_checkRep byteSize nodeValues nodeVariables
    then Ok (UintNode byteSize nodeValues nodeVariables) else Panic.

(** [NewFloatNode] *)
Definition NewFloatNode (byteSize : Z) (values : list any) : result ItemNode :=
  if bool_decide (getDataByteLength ("f" +:+ pretty byteSize) (len_any values) > MAX_BYTE_SIZE)
  then Panic
  else
    '(nodeValues, nodeVariables) ← collect classifyFloat 0 0%nat values [] ∅;
    if FloatNode_checkRep byteSize nodeValues nodeVariables
    then Ok (FloatNode byteSize nodeValues nodeVariables) else Panic.

(** [NewBinaryNode] *)
Definition NewBinaryNode (values : list any) : result ItemNode :=
  if bool_decide (getDataByteLength "binary" (len_any values) > MAX_BYTE_SIZE)
  then Panic
  else
    '(nodeValues, nodeVariables) ← collect classifyBinary 0 0%nat values [] ∅;
    if BinaryNode_checkRep nodeValues nodeVariables
    then Ok (BinaryNode nodeValues nodeVariables) else Panic.

(** [NewBooleanNode]; the size check names ["binary"] in the source. *)
Definition NewBooleanNode (values : list any) : result ItemNode :=
  if bool_decide (getDataByteLength "binary" (len_any values) > MAX_BYTE_SIZE)
  then Panic
  else
    '(nodeValues, nodeVariables) ← collect classifyBoolean false 0%nat values [] ∅;
    if BooleanNode_checkRep nodeValues nodeVariables
    then Ok (BooleanNode nodeValues nodeVariables) else Panic.

(** [NewListNode] *)
Definition NewListNode (values : list any) : result ItemNode :=
  if bool_decide (getDataByteLength "list" (len_any values) > MAX_BYTE_SIZE)
  then Panic
  else
    '(nodeValues, nodeVariables) ← collect classifyList NewEmptyItemNode 0%nat values [] ∅;
    if ListNode_checkRep nodeValues nodeVariables
    then Ok (ListNode nodeValues nodeVariables) else Panic.

Definition zeroVariable : asciiNodeVariable := mkAsciiNodeVariable "" 0 0.

(** [NewASCIINode] *)
Definition NewASCIINode (str : string) : result ItemNode :=
  if bool_decide (getDataByteLength "ascii" (len_string str) > MAX_BYTE_SIZE)
  then Panic
  else
    if ASCIINode_checkRep str zeroVariable true
    then Ok (ASCIINode str zeroVariable true) else Panic.

(** [NewASCIINodeVariable] *)
Definition NewASCIINodeVariable (name : string) (minLength maxLength : Z)
    : result ItemNode :=
  let variable := mkAsciiNodeVariable name minLength maxLength in
  if ASCIINode_checkRep "" variable false
  then Ok (ASCIINode "" variable false) else Panic.

(** ** HSMS control messages (package [ast], hsms.go) *)

Definition sTypeDataMessage : Z := 0.
Definition sTypeSelectReq : Z := 1.
Definition sTypeSelectRsp : Z := 2.
Definition sTypeDeselectReq : Z := 3.
Definition sTypeDeselectRsp : Z := 4.
Definition sTypeLinktestReq : Z := 5.
Definition sTypeLinktestRsp : Z := 6.
Definition sTypeRejectReq : Z := 7.
Definition sTypeSeparateReq : Z := 9.

Record ControlMessage : Type := mkControlMessage {
  header : list Z;
}.

(** [s[i]] on a slice: panics when out of range. *)
Definition index {A} (s : list A) (i : nat) : result A :=
  match s !! i with
  | Some x => Ok x
  | None => Panic
  end.

(** [make([]byte, n)] *)
Definition make_bytes (n : nat) : list Z := replicate n 0.

(** The loop that copies at most [n] leading elements of [src] into a
    fresh zeroed slice of length [n]. *)
Definition copy_prefix (n : nat) (src : list Z) : list Z :=
  take n src ++ replicate (n - length src) 0.

(** [NewHSMSControlMessage]: the copy loop stops after index 10, so it
    writes past the copy when the header has more than 10 bytes. *)
Definition NewHSMSControlMessage (header : list Z) : result ControlMessage :=
  if bool_decide (10 < length header)%nat then Panic
  else Ok (mkControlMessage (copy_prefix 10 header)).

(** The assignments to [header[6..9]] from [systemBytes[0..3]]. *)
Definition setSystemBytes (header systemBytes : list Z) : result (list Z) :=
  b0 ← index systemBytes 0;
  b1 ← index systemBytes 1;
  b2 ← index systemBytes 2;
  b3 ← index systemBytes 3;
  Ok (<[9%nat := b3]> (<[8%nat := b2]> (<[7%nat := b1]> (<[6%nat := b0]> header)))).

(** [ControlMessage.Type] *)
Definition ControlMessage_Type (msg : ControlMessage) : result string :=
  pType ← index (header msg) 4;
  if negb (bool_decide (pType = 0)) then Ok "undefined"
  else
    sType ← index (header msg) 5;
    Ok (if bool_decide (sType = 1) then "select.req"
        else if bool_decide (sType = 2) then "select.rsp"
        else if bool_decide (sType = 3) then "deselect.req"
        else if bool_decide (sType = 4) then "deselect.rsp"
        else if bool_decide (sType = 5) then "linktest.req"
        else if bool_decide (sType = 6) then "linktest.rsp"
        else if bool_decide (sType = 7) then "reject.req"
        else if bool_decide (sType = 9) then "separate.req"
        else "undefined").

(** [NewHSMSMessageSelectReq] *)
Definition NewHSMSMessageSelectReq (sessionID : Z) (systemBytes : list Z)
    : result ControlMessage :=
  let header := make_bytes 10 in
  let header := <[0%nat := byte (sessionID ≫ 8)]> header in
  let header := <[1%nat := byte sessionID]> header in
  let header := <[5%nat := sTypeSelectReq]> header in
  header ← setSystemBytes header systemBytes;
  Ok (mkControlMessage header).

(** The body shared by the three [Rsp] factory methods after their type
    test: copies of bytes of the request header. *)
Definition copyFromReq (dst : list Z) (req : ControlMessage) (indices : list nat)
    : result (list Z) :=
  foldl (λ acc i, h ← acc; b ← index (header req) i; Ok (<[i := b]> h))
        (Ok dst) indices.

(** [NewHSMSMessageSelectRsp] *)
Definition NewHSMSMessageSelectRsp (selectReq : ControlMessage) (selectStatus : Z)
    : result ControlMessage :=
  typ ← ControlMessage_Type selectReq;
  if negb (bool_decide (typ = "select.req")) then Panic
  else
    let header := make_bytes 10 in
    header ← copyFromReq header selectReq [0; 1]%nat;
    let header := <[3%nat := selectStatus]> header in
    let header := <[5%nat := sTypeSelectRsp]> header in
    header ← copyFromReq header selectReq [6; 7; 8; 9]%nat;
    Ok (mkControlMessage header).

(** [NewHSMSMessageDeselectReq] *)
Definition NewHSMSMessageDeselectReq (sessionID : Z) (systemBytes : list Z)
    : result ControlMessage :=
  let header := make_bytes 10 in
  let header := <[0%nat := byte (sessionID ≫ 8)]> header in
  let header := <[1%nat := byte sessionID]> header in
  let header := <[5%nat := sTypeDeselectReq]> header in
  header ← setSystemBytes header systemBytes;
  Ok (mkControlMessage header).

(** [NewHSMSMessageDeselectRsp] *)
Definition NewHSMSMessageDeselectRsp (deselectReq : ControlMessage) (deselectStatus : Z)
    : result ControlMessage :=
  typ ← ControlMessage_Type deselectReq;
  if negb (bool_decide (typ = "deselect.req")) then Panic
  else
    let header := make_bytes 10 in
    header ← copyFromReq header deselectReq [0; 1]%nat;
    let header := <[3%nat := deselectStatus]> header in
    let header := <[5%nat := sTypeDeselectRsp]> header in
    header ← copyFromReq header deselectReq [6; 7; 8; 9]%nat;
    Ok (mkControlMessage header).

(** [NewHSMSMessageLinktestReq] *)
Definition NewHSMSMessageLinktestReq (systemBytes : list Z) : result ControlMessage :=
  let header := make_bytes 10 in
  let header := <[0%nat := 255]> header in
  let header := <[1%nat := 255]> header in
  let header := <[5%nat := sTypeLinktestReq]> header in
  header ← setSystemBytes header systemBytes;
  Ok (mkControlMessage header).

(** [NewHSMSMessageLinktestRsp] *)
Definition NewHSMSMessageLinktestRsp (linktestReq : ControlMessage)
    : result ControlMessage :=
  typ ← ControlMessage_Type linktestReq;
  if negb (bool_decide (typ = "linktest.req")) then Panic
  else
    let header := make_bytes 10 in
    let header := <[0%nat := 255]> header in
    let header := <[1%nat := 255]> header in
    let header := <[5%nat := sTypeLinktestRsp]> header in
    header ← copyFromReq header linktestReq [6; 7; 8; 9]%nat;
    Ok (mkControlMessage header).

(** [NewHSMSMessageRejectReq] *)
Definition NewHSMSMessageRejectReq (sessionID : Z) (pType sType : Z)
    (systemBytes : list Z) (reasonCode : Z) : result ControlMessage :=
  let header := make_bytes 10 in
  let header := <[0%nat := byte (sessionID ≫ 8)]> header in
  let header := <[1%nat := byte sessionID]> header in
  let header :=
    if bool_decide (reasonCode = 2) then <[2%nat := pType]> header
    else <[2%nat := sType]> header in
  let header := <[3%nat := reasonCode]> header in
  let header := <[5%nat := sTypeRejectReq]> header in
  header ← setSystemBytes header systemBytes;
  Ok (mkControlMessage header).

(** [NewHSMSMessageSeparateReq] *)
Definition NewHSMSMessageSeparateReq (sessionID : Z) (systemBytes : list Z)
    : result ControlMessage :=
  let header := make_bytes 10 in
  let header := <[0%nat := byte (sessionID ≫ 8)]> header in
  let header := <[1%nat := byte sessionID]> header in
  let header := <[5%nat := sTypeSeparateReq]> header in
  header ← setSystemBytes header systemBytes;
  Ok (mkControlMessage header).

(** [ControlMessage.ToBytes] *)
Definition ControlMessage_ToBytes (msg : ControlMessage) : list Z :=
  [0; 0; 0; 10] ++ header msg.

(** *** Filling in variables *)

(** [nodeValues[pos] = x] on a slice: panics when out of range. *)
Definition assign {A} (s : list A) (i : nat) (x : A) : result (list A) :=
  if bool_decide (i < length s)%nat then Ok (<[i := x]> s) else Panic.

(** The [for name, pos := range node.variables] loop of the
    [FillVariables] methods. *)
Fixpoint fillSlots (values : gmap string any) (entries : list (string * nat))
    (nodeValues : list any) (createNew : bool) : result (list any * bool) :=
  match entries with
  | [] => Ok (nodeValues, createNew)
  | (name, pos) :: rest =>
    match values !! name with
    | Some v =>
      nodeValues ← assign nodeValues pos v;
      fillSlots values rest nodeValues true
    | None =>
      nodeValues ← assign nodeValues pos (AString name);
      fillSlots values rest nodeValues createNew
    end
  end.

(** The body shared by the [FillVariables] methods of the binary,
    boolean, float, int and uint nodes: [inject] boxes a stored value,
    [factory] is the factory method of the node type. *)
Definition fillNode {T : Type} (node : ItemNode) (inject : T → any)
    (factory : list any → result ItemNode) (nodeValues : list T)
    (variables : gmap string nat) (values : gmap string any) : result ItemNode :=
  if negb (has_variables variables) then Ok node
  else
    '(nodeValues, createNew) ←
      fillSlots values (map_to_list variables) (inject <$> nodeValues) false;
    if negb createNew then Ok node
    else factory nodeValues.

(** [ASCIINode.FillVariables] *)
Definition ASCIINode_FillVariables (node : ItemNode) (variable : asciiNodeVariable)
    (isValue : bool) (values : gmap string any) : result ItemNode :=
  if isValue then Ok node
  else
    match values !! name variable with
    | None => Ok node
    | Some (AString value) =>
      if bool_decide (len_string value < minLength variable) then Panic
      else if negb (bool_decide (maxLength variable = -1))
              && bool_decide (maxLength variable < len_string value) then Panic
      else NewASCIINode value
    | Some _ => Panic
    end.

(** [FillVariables] of the item types that hold no other item. *)
Definition FillVariables_leaf (node : ItemNode) (values : gmap string any)
    : result ItemNode :=
  match node with
  | emptyItemNode => Ok node
  | ListNode _ _ => Ok node
  | ASCIINode _ variable isValue => ASCIINode_FillVariables node variable isValue values
  | BinaryNode nodeValues variables =>
    fillNode node (AInt Tint) NewBinaryNode nodeValues variables values
  | BooleanNode nodeValues variables =>
    fillNode node ABool NewBooleanNode nodeValues variables values
  | FloatNode byteSize nodeValues variables =>
    fillNode node AFloat64 (NewFloatNode byteSize) nodeValues variables values
  | IntNode byteSize nodeValues variables =>
    fillNode node (AInt Tint64) (NewIntNode byteSize) nodeValues variables values
  | UintNode byteSize nodeValues variables =>
    fillNode node (AInt Tuint64) (NewUintNode byteSize) nodeValues variables values
  end.

(** [ListNode.splitValues] *)
Definition splitValues (values : gmap string any) : gmap string any * gmap string any :=
  (filter (λ kv, isEllipsis kv.1 = true) values,
   filter (λ kv, isEllipsis kv.1 ≠ true) values).

(** The first loop of [ListNode.ellipsisAnalysis]; the state is
    (ellipsisToFill, ellipsisRemaining, ellipsisValue). *)
Fixpoint ellipsisAnalysis_variables (values : gmap string any)
    (entries : list (string * nat)) (st : Z * Z * Z) : result (Z * Z * Z) :=
  match entries with
  | [] => Ok st
  | (name, _) :: rest =>
    if isEllipsis name then
      match values !! name with
      | Some (AInt Tint v) => ellipsisAnalysis_variables values rest (1, st.1.2, v)
      | Some _ => Panic
      | None => ellipsisAnalysis_variables values rest (st.1.1, 1, st.2)
      end
    else ellipsisAnalysis_variables values rest st
  end.

(** The second loop of [ListNode.ellipsisAnalysis]; [rec] is the method
    on a child list. *)
Definition ellipsisAnalysis_children (rec : ItemNode → result (Z * Z))
    (ellipsisValue : Z) : list ItemNode → Z * Z → result (Z * Z) :=
  fix go (items : list ItemNode) (acc : Z * Z) : result (Z * Z) :=
    match items with
    | [] => Ok acc
    | item :: rest =>
      if is_ListNode item then
        '(ef, er) ← rec item;
        go rest (acc.1 + (ellipsisValue + 1) * ef, acc.2 + (ellipsisValue + 1) * er)
      else go rest acc
    end.

(** [ListNode.ellipsisAnalysis]: (ellipsisToFill, ellipsisRemaining); it
    is a method of list nodes only. *)
Fixpoint ellipsisAnalysis (values : gmap string any) (node : ItemNode)
    : result (Z * Z) :=
  match node with
  | ListNode items variables =>
    '(ellipsisToFill, ellipsisRemaining, ellipsisValue) ←
      ellipsisAnalysis_variables values (map_to_list variables) (0, 0, 0);
    ellipsisAnalysis_children (ellipsisAnalysis values) ellipsisValue items
      (ellipsisToFill, ellipsisRemaining)
  | _ => Ok (0, 0)
  end.

(** [fillState]: the traversal state of [ListNode.fillEllipsis]. *)
Record fillState : Type := mkFillState {
  currentDimension : Z;
  currentIndices : list Z;
  ellipsisCount : Z;
  multipleEllipsis : bool;
}.

(** [newFillState] *)
Definition newFillState (remainingEllipsisCount : Z) : fillState :=
  mkFillState 0 [] 0 (bool_decide (remainingEllipsisCount > 1)).

(** [s[i]] for an [int] index. *)
Definition indexZ {A} (s : list A) (i : Z) : result A :=
  if bool_decide (0 ≤ i) then index s (Z.to_nat i) else Panic.

(** [s[i] = x] for an [int] index. *)
Definition assignZ {A} (s : list A) (i : Z) (x : A) : result (list A) :=
  if bool_decide (0 ≤ i) then assign s (Z.to_nat i) x else Panic.

(** [fillState.growDimension] *)
Definition growDimension (state : fillState) : result fillState :=
  indices ←
    (if bool_decide (currentDimension state = Z.of_nat (length (currentIndices state)))
     then Ok (currentIndices state ++ [0])
     else assignZ (currentIndices state) (currentDimension state) 0);
  Ok (mkFillState (currentDimension state + 1) indices
        (ellipsisCount state) (multipleEllipsis state)).

(** [fillState.exitDimension] *)
Definition exitDimension (state : fillState) : fillState :=
  mkFillState (currentDimension state - 1) (currentIndices state)
    (ellipsisCount state) (multipleEllipsis state).

(** [fillState.getCurrentDimensionIndex] *)
Definition getCurrentDimensionIndex (state : fillState) : result Z :=
  indexZ (currentIndices state) (currentDimension state - 1).

(** [fillState.growIndex] *)
Definition growIndex (state : fillState) : result fillState :=
  x ← indexZ (currentIndices state) (currentDimension state - 1);
  indices ← assignZ (currentIndices state) (currentDimension state - 1) (x + 1);
  Ok (mkFillState (currentDimension state) indices
        (ellipsisCount state) (multipleEllipsis state)).

(** The [for i := 0; i < state.currentDimension; i++] loop of
    [getNewVariableName]. *)
Fixpoint appendIndices (indices : list Z) (n : nat) (i : Z) (name : string)
    : result string :=
  match n with
  | O => Ok name
  | S n' =>
    x ← indexZ indices i;
    appendIndices indices n' (i + 1) (name +:+ "[" +:+ pretty x +:+ "]")
  end.

(** [fillState.getNewVariableName] *)
Definition getNewVariableName (name : string) (state : fillState)
    : result (string * fillState) :=
  if isEllipsis name then
    if multipleEllipsis state then
      Ok ("...[" +:+ pretty (ellipsisCount state) +:+ "]",
          mkFillState (currentDimension state) (currentIndices state)
            (ellipsisCount state + 1) (multipleEllipsis state))
    else Ok ("...", state)
  else
    name ← appendIndices (currentIndices state)
              (Z.to_nat (currentDimension state)) 0 name;
    Ok (name, state).

(** The first loop of [ListNode.fillEllipsis]: the first ellipsis among
    the variables that has a fill-in value; yields (ellipsisPosition,
    ellipsisValue) and the state. *)
Fixpoint findEllipsis (values : gmap string any) (entries : list (string * nat))
    (state : fillState) : result (Z * Z * fillState) :=
  match entries with
  | [] => Ok (-1, 0, state)
  | (name, pos) :: rest =>
    match values !! name with
    | Some v =>
      if isEllipsis name then
        match v with
        | AInt Tint ellipsisValue =>
          state ← (if bool_decide (ellipsisValue > 0) then growDimension state
                   else Ok state);
          Ok (Z.of_nat pos, ellipsisValue, state)
        | _ => Panic
        end
      else findEllipsis values rest state
    | None => findEllipsis values rest state
    end
  end.

(** The loop that builds the [fill] map in the [default] case of
    [fillEllipsis]. *)
Fixpoint renameAll (variables : list string) (fill : gmap string any)
    (state : fillState) : result (gmap string any * fillState) :=
  match variables with
  | [] => Ok (fill, state)
  | v :: rest =>
    '(newName, state) ← getNewVariableName v state;
    renameAll rest (<[v := AString newName]> fill) state
  end.

(** The [switch item.(type)] of the loop of [ListNode.fillEllipsis],
    applied to the item at index [i]; [rec] is [fillEllipsis] on a child
    list. *)
Definition fillEllipsis_item
    (rec : list ItemNode → gmap string nat → fillState → result (ItemNode * fillState))
    (nodeItems : list ItemNode) (posVar : gmap nat string)
    (i : Z) (nodeValues : list any) (state : fillState)
    : result (list any * fillState) :=
  item ← indexZ nodeItems i;
  match item with
  | ListNode vs vars =>
    '(filled, state) ← rec vs vars state;
    Ok (nodeValues ++ [AItem filled], state)
  | ASCIINode _ variable _ =>
    match Variables item with
    | [] => Ok (nodeValues ++ [AItem item], state)
    | v :: _ =>
      '(varName, state) ← getNewVariableName v state;
      node ← NewASCIINodeVariable varName (minLength variable) (maxLength variable);
      Ok (nodeValues ++ [AItem node], state)
    end
  | emptyItemNode =>
    '(varName, state) ← getNewVariableName (default EmptyString (posVar !! Z.to_nat i)) state;
    Ok (nodeValues ++ [AString varName], state)
  | _ =>
    let variables := Variables item in
    match variables with
    | [] => Ok (nodeValues ++ [AItem item], state)
    | _ =>
      '(fill, state) ← renameAll variables ∅ state;
      node ← FillVariables_leaf item fill;
      Ok (nodeValues ++ [AItem node], state)
    end
  end.

(** The loop [for i := 0; i < node.Size(); i++] of
    [ListNode.fillEllipsis], which sets [i] back to 0 to repeat the items
    before the ellipsis; [rounds] bounds the number of iterations and
    [handle] is the switch on the item at an index. *)
Definition fillEllipsis_loop
    (handle : Z → list any → fillState → result (list any * fillState))
    (size ellipsisPosition ellipsisValue : Z)
    : nat → Z → list any → fillState → result (list any * fillState) :=
  fix loop (rounds : nat) (i : Z) (nodeValues : list any) (state : fillState) :=
    match rounds with
    | O => OutOfFuel
    | S rounds' =>
      if bool_decide (i < size) then
        if bool_decide (i = ellipsisPosition) then
          if bool_decide (ellipsisValue = 0) then
            loop rounds' (i + 1) nodeValues state
          else
            idx ← getCurrentDimensionIndex state;
            if bool_decide (idx < ellipsisValue) then
              state ← growIndex state;
              '(nodeValues, state) ← handle 0 nodeValues state;
              loop rounds' (0 + 1) nodeValues state
            else
              loop rounds' (i + 1) nodeValues (exitDimension state)
        else
          '(nodeValues, state) ← handle i nodeValues state;
          loop rounds' (i + 1) nodeValues state
      else Ok (nodeValues, state)
    end.

(** [ListNode.fillEllipsis] on the list node with the given items and
    variables. [fuel] bounds the nesting depth and the number of rounds
    of the loop. *)
Fixpoint fillEllipsis (fuel : nat) (nodeItems : list ItemNode)
    (nodeVariables : gmap string nat) (values : gmap string any)
    (state : fillState) : result (ItemNode * fillState) :=
  match fuel with
  | O => OutOfFuel
  | S fuel' =>
    '(ellipsisPosition, ellipsisValue, state) ←
      findEllipsis values (map_to_list nodeVariables) state;
    let posVar := variablesSwapKeyValue nodeVariables in
    '(nodeValues, state) ←
      fillEllipsis_loop
        (fillEllipsis_item (λ vs vars, fillEllipsis fuel' vs vars values) nodeItems posVar)
        (Z.of_nat (length nodeItems)) ellipsisPosition ellipsisValue
        fuel' 0 [] state;
    node ← NewListNode nodeValues;
    Ok (node, state)
  end.

(** The loop [for _, item := range nodeEllipsisFilled.values] of
    [ListNode.FillVariables]; [rec] is [FillVariables] on a child. *)
Definition fillChildren (rec : ItemNode → result ItemNode)
    : list ItemNode → result (list any) :=
  fix go (items : list ItemNode) : result (list any) :=
    match items with
    | [] => Ok []
    | item :: rest =>
      filled ← rec item;
      nodeValues ← go rest;
      Ok (AItem filled :: nodeValues)
    end.

(** [FillVariables]. [fuel] bounds the nesting depth of the item and the
    rounds of [fillEllipsis]; the children that are filled are those of
    the node returned by [fillEllipsis]. *)
Fixpoint FillVariables (fuel : nat) (node : ItemNode) (values : gmap string any)
    : result ItemNode :=
  match node with
  | ListNode nodeItems nodeVariables =>
    match fuel with
    | O => OutOfFuel
    | S fuel' =>
      let '(ellipsisValues, otherValues) := splitValues values in
      '(ellipsisToFill, ellipsisRemaining) ← ellipsisAnalysis ellipsisValues node;
      nodeEllipsisFilled ←
        (if bool_decide (ellipsisToFill > 0) then
           fst <$> fillEllipsis fuel' nodeItems nodeVariables ellipsisValues
                     (newFillState ellipsisRemaining)
         else Ok node);
      match nodeEllipsisFilled with
      | ListNode filledItems filledVariables =>
        nodeValues ← fillChildren (λ item, FillVariables fuel' item otherValues) filledItems;
        '(nodeValues, _) ← fillSlots otherValues (map_to_list filledVariables) nodeValues false;
        NewListNode nodeValues
      | _ => Panic
      end
    end
  | _ => FillVariables_leaf node values
  end.

(** ** SECS-II data messages (package [ast], ast.go) *)

(** The field [dataItem] has the interface type [ItemNode], whose values
    are the items and [nil]; [None] is [nil]. Elsewhere an item is never
    [nil]: the factory methods of the items receive their arguments as
    [interface{}], where a [nil] item is the [nil] interface value, which
    no case of their type switches accepts ([AOther]). *)
Record DataMessage : Type := mkDataMessage {
  messageName : string;      (* the field [name] *)
  stream : Z;
  function : Z;
  waitBit : Z;
  direction : string;
  dataItem : option ItemNode;
  sessionID : Z;
  systemBytes : list Z;
}.

(** [unicode.IsSpace] *)
Definition IsSpace (ch : Z) : bool :=
  bool_decide (9 ≤ ch ≤ 13) || bool_decide (ch = 32)
  || bool_decide (ch = 133) || bool_decide (ch = 160)
  || bool_decide (ch = 5760) || bool_decide (8192 ≤ ch ≤ 8202)
  || bool_decide (ch = 8232) || bool_decide (ch = 8233)
  || bool_decide (ch = 8239) || bool_decide (ch = 8287)
  || bool_decide (ch = 12288).

(** [DataMessage.checkRep]: [true] when no check panics. *)
Definition DataMessage_checkRep (node : DataMessage) : bool :=
  forallb (λ ch, negb (IsSpace ch)) (runes (string_bytes (messageName node)))
  && bool_decide (0 ≤ stream node ∧ stream node < 128)
  && bool_decide (0 ≤ function node ∧ function node < 256)
  && negb (bool_decide (waitBit node = 1) && bool_decide (Z.rem (function node) 2 = 0))
  && bool_decide (0 ≤ waitBit node ∧ waitBit node ≤ 2)
  && bool_decide (-1 ≤ sessionID node ∧ sessionID node < 65536)
  && bool_decide (length (systemBytes node) = 4%nat)
  && negb (negb (bool_decide (direction node = "H->E"))
           && negb (bool_decide (direction node = "H<-E"))
           && negb (bool_decide (direction node = "H<->E"))).

(** [message.checkRep(); return message] *)
Definition checked (message : DataMessage) : result DataMessage :=
  if DataMessage_checkRep message then Ok message else Panic.

(** A method call [item.m()] on the interface value [item]: it panics
    on [nil]. *)
Definition deref (item : option ItemNode) : result ItemNode :=
  match item with
  | Some node => Ok node
  | None => Panic
  end.

(** [NewDataMessage] *)
Definition NewDataMessage (name : string) (stream function waitBit : Z)
    (direction : string) (dataItem : option ItemNode) : result DataMessage :=
  checked (mkDataMessage name stream function waitBit direction dataItem
             (-1) [0; 0; 0; 0]).

(** [NewHSMSDataMessage] *)
Definition NewHSMSDataMessage (name : string) (stream function waitBit : Z)
    (direction : string) (dataItem : option ItemNode) (sessionID : Z)
    (systemBytes : list Z) : result DataMessage :=
  if negb (bool_decide (waitBit = 0)) && negb (bool_decide (waitBit = 1)) then Panic
  else if bool_decide (sessionID = -1) then Panic
  else
    item ← deref dataItem;
    if negb (bool_decide (length (Variables item) = 0%nat)) then Panic
    else
      let systemBytesCopy := copy_prefix 4 systemBytes in
      checked (mkDataMessage name stream function waitBit direction dataItem
                 sessionID systemBytesCopy).

(** [DataMessage.WaitBit] *)
Definition WaitBit (node : DataMessage) : result string :=
  if bool_decide (waitBit node = 0) then Ok "false"
  else if bool_decide (waitBit node = 1) then Ok "true"
  else if bool_decide (waitBit node = 2) then Ok "optional"
  else Panic.

(** [DataMessage.SetWaitBit] *)
Definition SetWaitBit (node : DataMessage) (waitBit' : bool) : result DataMessage :=
  if negb (bool_decide (waitBit node = 2)) then Ok node
  else
    let waitBitAsNumber := if waitBit' then 1 else 0 in
    checked (mkDataMessage (messageName node) (stream node) (function node)
               waitBitAsNumber (direction node) (dataItem node)
               (sessionID node) (systemBytes node)).

(** [DataMessage.SetSessionIDAndSystemBytes] *)
Definition SetSessionIDAndSystemBytes (node : DataMessage) (sessionID' : Z)
    (systemBytes' : list Z) : result DataMessage :=
  let systemBytesCopy := copy_prefix 4 systemBytes' in
  checked (mkDataMessage (messageName node) (stream node) (function node)
             (waitBit node) (direction node) (dataItem node)
             sessionID' systemBytesCopy).

(** [DataMessage.Variables] *)
Definition DataMessage_Variables (node : DataMessage) : result (list string) :=
  item ← deref (dataItem node);
  Ok (Variables item).

(** [DataMessage.FillVariables] *)
Definition DataMessage_FillVariables (fuel : nat) (node : DataMessage)
    (values : gmap string any) : result DataMessage :=
  item ← deref (dataItem node);
  item ← FillVariables fuel item values;
  checked (mkDataMessage (messageName node) (stream node) (function node)
             (waitBit node) (direction node) (Some item)
             (sessionID node) (systemBytes node)).

(** [s[:n]]: panics when the slice is shorter than [n]. *)
Definition slice_to {A} (s : list A) (n : nat) : result (list A) :=
  if bool_decide (n ≤ length s)%nat then Ok (take n s) else Panic.

(** [DataMessage.ToBytes]; the operands of [||] are evaluated from left
    to right, and none after the first that is true. *)
Definition DataMessage_ToBytes (node : DataMessage) : result (list Z) :=
  w ← WaitBit node;
  notHSMS ←
    (if bool_decide (w = "optional") then Ok true
     else
       variables ← DataMessage_Variables node;
       if negb (bool_decide (length variables = 0%nat)) then Ok true
       else Ok (bool_decide (sessionID node = -1)));
  if (notHSMS : bool) then Ok []
  else
    item ← deref (dataItem node);
    let itemBytes := ToBytes item in
    let msgLength := uint32 (Z.of_nat (length itemBytes) + 10) in
    let result := [byte (msgLength ≫ 24); byte (msgLength ≫ 16);
                   byte (msgLength ≫ 8); byte msgLength] in
    let result := result ++ [byte (sessionID node ≫ 8); byte (sessionID node)] in
    let headerByte2 := stream node in
    w ← WaitBit node;
    let headerByte2 := if bool_decide (w = "true") then headerByte2 + 128 else headerByte2 in
    let result := result ++ [byte headerByte2] in
    let result := result ++ [byte (function node)] in
    let result := result ++ [0; 0] in
    sys ← slice_to (systemBytes node) 4;
    let result := result ++ sys in
    Ok (result ++ itemBytes).

(** [HSMSMessage]: the interface implemented by [DataMessage] and
    [ControlMessage]. *)
Inductive HSMSMessage : Type :=
| DataMsg (m : DataMessage)
| ControlMsg (m : ControlMessage).

(** [HSMSMessage.ToBytes] *)
Definition HSMSMessage_ToBytes (msg : HSMSMessage) : result (list Z) :=
  match msg with
  | DataMsg m => DataMessage_ToBytes m
  | ControlMsg m => Ok (ControlMessage_ToBytes m)
  end.

(** ** The HSMS decoder (package [hsms], parser.go) *)

Definition formatCodeList : Z := 0.      (* 0o00 *)
Definition formatCodeBinary : Z := 8.    (* 0o10 *)
Definition formatCodeBoolean : Z := 9.   (* 0o11 *)
Definition formatCodeASCII : Z := 16.    (* 0o20 *)
Definition formatCodeI8 : Z := 24.       (* 0o30 *)
Definition formatCodeI1 : Z := 25.       (* 0o31 *)
Definition formatCodeI2 : Z := 26.       (* 0o32 *)
Definition formatCodeI4 : Z := 28.       (* 0o34 *)
Definition formatCodeF8 : Z := 32.       (* 0o40 *)
Definition formatCodeF4 : Z := 36.       (* 0o44 *)
Definition formatCodeU8 : Z := 40.       (* 0o50 *)
Definition formatCodeU1 : Z := 41.       (* 0o51 *)
Definition formatCodeU2 : Z := 42.       (* 0o52 *)
Definition formatCodeU4 : Z := 44.       (* 0o54 *)

Record parser : Type := mkParser {
  input : list Z;
  pos : nat;
  msgLength : Z;
  msg : option HSMSMessage;
}.

Definition set_pos (p : parser) (pos' : nat) : parser :=
  mkParser (input p) pos' (msgLength p) (msg p).

Definition set_msg (p : parser) (m : HSMSMessage) : parser :=
  mkParser (input p) (pos p) (msgLength p) (Some m).

(** [s[lo:hi]]: panics when the bounds are out of range (the input slice
    is taken to have no spare capacity). *)
Definition slice {A} (s : list A) (lo hi : nat) : result (list A) :=
  if bool_decide (lo ≤ hi ∧ hi ≤ length s)%nat
  then Ok (take (hi - lo) (drop lo s)) else Panic.

(** [parser.parseMessageLength] *)
Definition parseMessageLength (p : parser) : bool * parser :=
  if bool_decide (length (input p) < 14)%nat then (false, p)
  else
    let lengthBytes := take 4 (input p) in
    let p := set_pos p (pos p + 4) in
    let p := mkParser (input p) (pos p) (BigEndian lengthBytes) (msg p) in
    (bool_decide (Z.of_nat (length (drop (pos p) (input p))) = msgLength p), p).

(** The loop [for i, b := range lengthBytes] of [parseMessageText]:
    the shift [b << shift] is computed in the type [byte] of [b]. *)
Fixpoint lengthOf (lengthBytesCount : Z) (i : Z) (lengthBytes : list Z) (length : Z) : Z :=
  match lengthBytes with
  | [] => length
  | b :: rest =>
    let shift := (lengthBytesCount - i - 1) * 8 in
    lengthOf lengthBytesCount (i + 1) rest (length + byte (b ≪ shift))
  end.

(** [string(v)] for a byte [v]: the UTF-8 encoding of the code point. *)
Definition string_of_byte (v : Z) : list Z :=
  if bool_decide (v < 128) then [v]
  else [192 + v ≫ 6; 128 + v `mod` 64].

(** The element loops of [parseFloat], [parseInt] and [parseUint]:
    element [i] is read from [input[pos+byteSize*i : pos+byteSize*(i+1)]]. *)
Fixpoint readValues (input : list Z) (pos byteSize : nat) (conv : list Z → any)
    (valueCounts : nat) (i : nat) : result (list any) :=
  match valueCounts with
  | O => Ok []
  | S n =>
    bs ← slice input (pos + byteSize * i) (pos + byteSize * (i + 1));
    rest ← readValues input pos byteSize conv n (S i);
    Ok (conv bs :: rest)
  end.

(** The shape shared by [parseFloat], [parseInt] and [parseUint]. *)
Definition parseValues (p : parser) (byteSize : Z) (length : Z)
    (conv : list Z → any) (factory : list any → result ItemNode)
    : result (ItemNode * bool * parser) :=
  if negb (bool_decide (Z.rem length byteSize = 0)) then Ok (NewEmptyItemNode, false, p)
  else
    let valueCounts := Z.quot length byteSize in
    values ← readValues (input p) (pos p) (Z.to_nat byteSize) conv (Z.to_nat valueCounts) 0;
    let p := set_pos p (pos p + Z.to_nat length) in
    node ← factory values;
    Ok (node, true, p).

(** [parser.parseFloat] *)
Definition parseFloat (p : parser) (byteSize length : Z) :=
  parseValues p byteSize length
    (λ bs, if bool_decide (byteSize = 4) then AFloat32 (BigEndian bs)
           else AFloat64 (BigEndian bs))
    (NewFloatNode byteSize).

(** [parser.parseInt] *)
Definition parseInt (p : parser) (byteSize length : Z) :=
  parseValues p byteSize length
    (λ bs, if bool_decide (byteSize = 1) then AInt Tint8 (wrap_int8 (BigEndian bs))
           else if bool_decide (byteSize = 2) then AInt Tint16 (wrap_int16 (BigEndian bs))
           else if bool_decide (byteSize = 4) then AInt Tint32 (wrap_int32 (BigEndian bs))
           else AInt Tint64 (wrap_int64 (BigEndian bs)))
    (NewIntNode byteSize).

(** [parser.parseUint] *)
Definition parseUint (p : parser) (byteSize length : Z) :=
  parseValues p byteSize length
    (λ bs, if bool_decide (byteSize = 1) then AInt Tuint8 (BigEndian bs)
           else if bool_decide (byteSize = 2) then AInt Tuint16 (BigEndian bs)
           else if bool_decide (byteSize = 4) then AInt Tuint32 (BigEndian bs)
           else AInt Tuint64 (BigEndian bs))
    (NewUintNode byteSize).

(** The loop [for i := 0; i < length; i++] of the list case of
    [parseMessageText]; [rec] is [parseMessageText] on a child. [None]
    is returned when a child is not ok. *)
Definition parseChildren (rec : parser → result (ItemNode * bool * parser))
    : nat → parser → list any → result (option (list any) * parser) :=
  fix go (n : nat) (p : parser) (values : list any) :=
    match n with
    | O => Ok (Some values, p)
    | S n' =>
      '(item, ok, p) ← rec p;
      if negb ok then Ok (None, p)
      else go n' p (values ++ [AItem item])
    end.

(** [parser.parseMessageText]; [fuel] bounds the nesting depth of the
    lists read. The result is (dataItem, ok) and the advanced parser. *)
Fixpoint parseMessageText (fuel : nat) (p : parser)
    : result (ItemNode * bool * parser) :=
  match fuel with
  | O => OutOfFuel
  | S fuel' =>
    if bool_decide (msgLength p = 10) then Ok (NewEmptyItemNode, true, p)
    else
      b ← index (input p) (pos p);
      let formatCode := b ≫ 2 in
      let lengthBytesCount := Z.land b 3 in
      if bool_decide (lengthBytesCount = 0) then Ok (NewEmptyItemNode, false, p)
      else
        let p := set_pos p (pos p + 1) in
        lengthBytes ← slice (input p) (pos p) (pos p + Z.to_nat lengthBytesCount);
        let length := lengthOf lengthBytesCount 0 lengthBytes 0 in
        let p := set_pos p (pos p + Z.to_nat lengthBytesCount) in
        if bool_decide (formatCode = formatCodeList) then
          r ← parseChildren (parseMessageText fuel') (Z.to_nat length) p [];
          match r with
          | (None, p) => Ok (NewEmptyItemNode, false, p)
          | (Some values, p) => node ← NewListNode values; Ok (node, true, p)
          end
        else if bool_decide (formatCode = formatCodeASCII) then
          bs ← slice (input p) (pos p) (pos p + Z.to_nat length);
          let str := bytes_string (bs ≫= string_of_byte) in
          let p := set_pos p (pos p + Z.to_nat length) in
          node ← NewASCIINode str;
          Ok (node, true, p)
        else if bool_decide (formatCode = formatCodeBinary) then
          bs ← slice (input p) (pos p) (pos p + Z.to_nat length);
          let values := AInt Tuint8 <$> bs in
          let p := set_pos p (pos p + Z.to_nat length) in
          node ← NewBinaryNode values;
          Ok (node, true, p)
        else if bool_decide (formatCode = formatCodeBoolean) then
          bs ← slice (input p) (pos p) (pos p + Z.to_nat length);
          let values := (λ v, ABool (negb (bool_decide (v = 0)))) <$> bs in
          let p := set_pos p (pos p + Z.to_nat length) in
          node ← NewBooleanNode values;
          Ok (node, true, p)
        else if bool_decide (formatCode = formatCodeF4) then parseFloat p 4 length
        else if bool_decide (formatCode = formatCodeF8) then parseFloat p 8 length
        else if bool_decide (formatCode = formatCodeI1) then parseInt p 1 length
        else if bool_decide (formatCode = formatCodeI2) then parseInt p 2 length
        else if bool_decide (formatCode = formatCodeI4) then parseInt p 4 length
        else if bool_decide (formatCode = formatCodeI8) then parseInt p 8 length
        else if bool_decide (formatCode = formatCodeU1) then parseUint p 1 length
        else if bool_decide (formatCode = formatCodeU2) then parseUint p 2 length
        else if bool_decide (formatCode = formatCodeU4) then parseUint p 4 length
        else if bool_decide (formatCode = formatCodeU8) then parseUint p 8 length
        else Ok (NewEmptyItemNode, false, p)
  end.

(** [parser.parseMessage] *)
Definition parseMessage (fuel : nat) (p : parser) : result (bool * parser) :=
  headerBytes ← slice (input p) (pos p) (pos p + 10);
  let p := set_pos p (pos p + 10) in
  h4 ← index headerBytes 4;
  if negb (bool_decide (h4 = 0)) then Ok (false, p)
  else
    h5 ← index headerBytes 5;
    if bool_decide (h5 = sTypeDataMessage) then
      h2 ← index headerBytes 2;
      h3 ← index headerBytes 3;
      let stream := Z.land h2 127 in
      let function := h3 in
      let waitBit := h2 ≫ 7 in
      let sessionID := BigEndian (take 2 headerBytes) in
      systemBytes ← slice headerBytes 6 10;
      '(dataItem, ok, p) ← parseMessageText fuel p;
      if negb ok then Ok (false, p)
      else
        m ← NewHSMSDataMessage "" stream function waitBit "H<->E" (Some dataItem)
              sessionID systemBytes;
        Ok (true, set_msg p (DataMsg m))
    else if bool_decide (h5 = sTypeSelectReq ∨ h5 = sTypeSelectRsp
                         ∨ h5 = sTypeDeselectReq ∨ h5 = sTypeDeselectRsp
                         ∨ h5 = sTypeLinktestReq ∨ h5 = sTypeLinktestRsp
                         ∨ h5 = sTypeRejectReq ∨ h5 = sTypeSeparateReq) then
      m ← NewHSMSControlMessage headerBytes;
      Ok (true, set_msg p (ControlMsg m))
    else Ok (false, p).

(** [Parse]: the message and [ok = true], or [None] for [ok = false];
    a panic is recovered into [ok = false]. Every nested item read
    consumes input, so the length of the input bounds the nesting. *)
Definition Parse (input : list Z) : result (option HSMSMessage) :=
  let p := mkParser input 0 0 None in
  let '(ok, p) := parseMessageLength p in
  if negb ok then Ok None
  else
    match parseMessage (S (length input)) p with
    | Ok (false, p) => Ok None
    | Ok (true, p) => Ok (msg p)
    | Panic => Ok None
    | OutOfFuel => OutOfFuel
    end.

(** ** Printing of ASCII items (ascii.go) *)

(** [utf8.AppendRune], used by [strings.Builder.WriteRune]. *)
Definition utf8_encode (ch : Z) : list Z :=
  if bool_decide (ch < 128) then [ch]
  else if bool_decide (ch < 2048) then [192 + ch ≫ 6; 128 + ch `mod` 64]
  else if bool_decide (ch < 65536) then
    [224 + ch ≫ 12; 128 + (ch ≫ 6) `mod` 64; 128 + ch `mod` 64]
  else [240 + ch ≫ 18; 128 + (ch ≫ 12) `mod` 64; 128 + (ch ≫ 6) `mod` 64;
        128 + ch `mod` 64].

Definition hex_digit (d : Z) : Z := if bool_decide (d < 10) then 48 + d else 55 + d.

(** [fmt.Sprintf("%02X", ch)] for a code below 256. *)
Definition hex02 (ch : Z) : string :=
  bytes_string [hex_digit (ch ≫ 4); hex_digit (ch `mod` 16)].

(** The double quote character. *)
Definition dquote : string := bytes_string [34].

(** The loop [for _, ch := range node.value] of [ASCIINode.String]. *)
Fixpoint printRunes (chs : list Z) (printableState : bool) (sb : string) : string :=
  match chs with
  | [] => if printableState then sb +:+ dquote else sb
  | ch :: rest =>
    if bool_decide (ch < 32) || bool_decide (ch = 127) then
      let sb := if printableState then sb +:+ dquote else sb in
      printRunes rest false (sb +:+ " 0x" +:+ hex02 ch)
    else
      let sb := if printableState then sb else sb +:+ " " +:+ dquote in
      printRunes rest true (sb +:+ bytes_string (utf8_encode ch))
  end.

(** [ASCIINode.String] *)
Definition ASCIINode_String (value : string) (variable : asciiNodeVariable)
    (isValue : bool) : string :=
  if negb isValue then
    let min := minLength variable in
    let max := maxLength variable in
    let lengthStr :=
      if bool_decide (min = 0) && bool_decide (max = -1) then EmptyString
      else if bool_decide (min = max) then "[" +:+ pretty max +:+ "]"
      else if bool_decide (max = -1) then "[" +:+ pretty min +:+ "..]"
      else "[" +:+ pretty min +:+ ".." +:+ pretty max +:+ "]" in
    "<A" +:+ lengthStr +:+ " " +:+ name variable +:+ ">"
  else if bool_decide (value = EmptyString) then "<A[0]>"
  else "<A" +:+ printRunes (runes (string_bytes value)) false EmptyString +:+ ">".

(** ** Well-formed items and reachable messages *)

(** [wf node]: at every node of the tree the size test of the factory
    method and [checkRep] succeed, as for every item that the factory
    methods return. *)
Fixpoint wf (node : ItemNode) : bool :=
  match node with
  | emptyItemNode => true
  | ListNode values variables =>
    negb (bool_decide (getDataByteLength "list" (Size node) > MAX_BYTE_SIZE))
    && ListNode_checkRep values variables
    && forallb wf values
  | ASCIINode value variable isValue =>
    negb (isValue && bool_decide (getDataByteLength "ascii" (Size node) > MAX_BYTE_SIZE))
    && ASCIINode_checkRep value variable isValue
  | BinaryNode values variables =>
    negb (bool_decide (getDataByteLength "binary" (Size node) > MAX_BYTE_SIZE))
    && BinaryNode_checkRep values variables
  | BooleanNode values variables =>
    negb (bool_decide (getDataByteLength "binary" (Size node) > MAX_BYTE_SIZE))
    && BooleanNode_checkRep values variables
  | FloatNode byteSize values variables =>
    negb (bool_decide (getDataByteLength ("f" +:+ pretty byteSize) (Size node) > MAX_BYTE_SIZE))
    && FloatNode_checkRep byteSize values variables
  | IntNode byteSize values variables =>
    negb (bool_decide (getDataByteLength ("i" +:+ pretty byteSize) (Size node) > MAX_BYTE_SIZE))
    && IntNode_checkRep byteSize values variables
  | UintNode byteSize values variables =>
    negb (bool_decide (getDataByteLength ("u" +:+ pretty byteSize) (Size node) > MAX_BYTE_SIZE))
    && UintNode_checkRep byteSize values variables
  end.

(** The data messages that the operations of ast.go can produce. *)
Inductive reachable : DataMessage → Prop :=
| reach_NewDataMessage name stream function waitBit direction dataItem m :
    NewDataMessage name stream function waitBit direction dataItem = Ok m →
    reachable m
| reach_NewHSMSDataMessage name stream function waitBit direction dataItem
    sessionID systemBytes m :
    NewHSMSDataMessage name stream function waitBit direction dataItem
      sessionID systemBytes = Ok m →
    reachable m
| reach_SetWaitBit node waitBit m :
    reachable node → SetWaitBit node waitBit = Ok m → reachable m
| reach_SetSessionIDAndSystemBytes node sessionID systemBytes m :
    reachable node →
    SetSessionIDAndSystemBytes node sessionID systemBytes = Ok m →
    reachable m
| reach_FillVariables fuel node values m :
    reachable node → DataMessage_FillVariables fuel node values = Ok m →
    reachable m.

(** The number of length bytes that represent [n] without a leading zero
    byte (one byte for 0). *)
Definition minimalLengthBytes (n : Z) : nat :=
  if bool_decide (n ≤ 255) then 1%nat
  else if bool_decide (n ≤ 65535) then 2%nat
  else 3%nat.

(** ** Example values *)

(** The message [S1F1 W] with the item [<A "text">], session id 1 and
    system bytes 00 00 00 01. *)
Definition example_message : DataMessage :=
  mkDataMessage EmptyString 1 1 1 "H<->E" (Some (ASCIINode "text" zeroVariable true))
    1 [0; 0; 0; 1].

(** The item [<L <A var> varNode ...>]. *)
Definition example_list : result ItemNode :=
  item ← NewASCIINodeVariable "var" 0 (-1);
  NewListNode [AItem item; AString "varNode"; AString "..."].

(** [terminates r]: the outcome [r] was computed with enough fuel. *)
Definition terminates {A} (r : result A) : Prop := r ≠ OutOfFuel.

(** The message [S1F1 W] whose item is an ASCII string of 256
    characters, session id 1 and system bytes 00 00 00 01. *)
Definition long_text : string := bytes_string (replicate 256 97).

Definition long_message : DataMessage :=
  mkDataMessage EmptyString 1 1 1 "H<->E" (Some (ASCIINode long_text zeroVariable true))
    1 [0; 0; 0; 1].

(** The control messages that the eight factory methods return. *)
Inductive constructed : ControlMessage → Prop :=
| constructed_SelectReq sessionID systemBytes msg :
    NewHSMSMessageSelectReq sessionID systemBytes = Ok msg → constructed msg
| constructed_SelectRsp selectReq selectStatus msg :
    constructed selectReq →
    NewHSMSMessageSelectRsp selectReq selectStatus = Ok msg → constructed msg
| constructed_DeselectReq sessionID systemBytes msg :
    NewHSMSMessageDeselectReq sessionID systemBytes = Ok msg → constructed msg
| constructed_DeselectRsp deselectReq deselectStatus msg :
    constructed deselectReq →
    NewHSMSMessageDeselectRsp deselectReq deselectStatus = Ok msg → constructed msg
| constructed_LinktestReq systemBytes msg :
    NewHSMSMessageLinktestReq systemBytes = Ok msg → constructed msg
| constructed_LinktestRsp linktestReq msg :
    constructed linktestReq →
    NewHSMSMessageLinktestRsp linktestReq = Ok msg → constructed msg
| constructed_RejectReq sessionID pType sType systemBytes reasonCode msg :
    NewHSMSMessageRejectReq sessionID pType sType systemBytes reasonCode = Ok msg →
    constructed msg
| constructed_SeparateReq sessionID systemBytes msg :
    NewHSMSMessageSeparateReq sessionID systemBytes = Ok msg → constructed msg.

(** ** Notions used to state and prove the filling of one variable *)

(** The nesting depth of lists in an item. *)
Fixpoint depth (node : ItemNode) : nat :=
  match node with
  | ListNode values _ => S (foldr (λ item d, Nat.max (depth item) d) 0%nat values)
  | _ => 0%nat
  end.

(** [accepts node v x]: the fill-in value [x] is a data value for every
    slot of [node] that holds the variable [v]: the factory method of the
    node that holds [v] reads [x] as a value (not as the name of a
    variable) within the range that [checkRep] requires; for a slot of a
    list, [x] is an item other than the empty item and without
    variables; for an ASCII variable, [x] is a string of 7-bit characters
    within the length bounds. *)
Fixpoint accepts (node : ItemNode) (v : string) (x : any) : Prop :=
  match node with
  | emptyItemNode => True
  | ListNode values variables =>
    (is_Some (variables !! v) →
     ∃ item, x = AItem item ∧ is_emptyItemNode item = false ∧ Variables item = [])
    ∧ (fix all (items : list ItemNode) : Prop :=
         match items with
         | [] => True
         | item :: rest => accepts item v x ∧ all rest
         end) values
  | ASCIINode _ variable isValue =>
    isValue = false → name variable = v →
    ∃ s, x = AString s
         ∧ minLength variable ≤ len_string s
         ∧ (maxLength variable = -1 ∨ len_string s ≤ maxLength variable)
         ∧ wf (ASCIINode s zeroVariable true) = true
  | BinaryNode _ variables =>
    is_Some (variables !! v) →
    ∃ t, classifyBinary x = Ok (SValue t) ∧ BinaryNode_checkRep [t] ∅ = true
  | BooleanNode _ variables =>
    is_Some (variables !! v) → ∃ t, classifyBoolean x = Ok (SValue t)
  | FloatNode byteSize _ variables =>
    is_Some (variables !! v) →
    ∃ t, classifyFloat x = Ok (SValue t) ∧ FloatNode_checkRep byteSize [t] ∅ = true
  | IntNode byteSize _ variables =>
    is_Some (variables !! v) →
    ∃ t, classifyInt x = Ok (SValue t) ∧ IntNode_checkRep byteSize [t] ∅ = true
  | UintNode byteSize _ variables =>
    is_Some (variables !! v) →
    ∃ t, classifyUint x = Ok (SValue t) ∧ UintNode_checkRep byteSize [t] ∅ = true
  end.

(** The slots of a node seen as one list: the name of the variable at a
    position that holds one, the stored value elsewhere. *)
Definition slots {T : Type} (values : list T) (variables : gmap string nat)
    : list (slot T) :=
  imap (λ i t, match variablesSwapKeyValue variables !! i with
               | Some n => SVariable n
               | None => SValue t
               end) values.

Definition slot_value {T : Type} (zero : T) (s : slot T) : T :=
  match s with SValue t => t | SVariable _ => zero end.

Definition slot_name {T : Type} (s : slot T) : option string :=
  match s with SValue _ => None | SVariable n => Some n end.

(** The names in a list of slots, in order. *)
Definition names {T : Type} (sl : list (slot T)) : list string := omap slot_name sl.

(** The names in a list of slots with their positions, counted from [i]. *)
Fixpoint entries {T : Type} (i : nat) (sl : list (slot T)) : list (string * nat) :=
  match sl with
  | [] => []
  | SVariable n :: rest => (n, i) :: entries (S i) rest
  | SValue _ :: rest => entries (S i) rest
  end.

(** The position of a slot after one variable is filled: the slot that
    held [v] holds the value [tx], every other slot is unchanged. *)
Definition fill_slot {T : Type} (v : string) (tx : T) (s : slot T) : slot T :=
  match s with
  | SVariable n => if decide (n = v) then SValue tx else SVariable n
  | SValue t => SValue t
  end.

(** The argument that [FillVariables] passes to the factory method for a
    slot: the fill-in value or the name for a variable, the boxed value
    otherwise. *)
Definition fill_any {T : Type} (values : gmap string any) (inject : T → any)
    (s : slot T) : any :=
  match s with
  | SVariable n => default (AString n) (values !! n)
  | SValue t => inject t
  end.

(** The names that one slot of a list contributes to [Variables()]. *)
Definition slot_vars (s : slot ItemNode) : list string :=
  match s with
  | SVariable n => [n]
  | SValue c => if is_emptyItemNode c then [EmptyString] else Variables c
  end.

(** The values of an unsigned integer item have the type [uint64]: none
    is negative. *)
Fixpoint typed (node : ItemNode) : bool :=
  match node with
  | ListNode values _ => forallb typed values
  | UintNode _ values _ => forallb (λ v, bool_decide (0 ≤ v)) values
  | _ => true
  end.

(* MARK-END-DEFINITIONS *)

(** * Verified properties *)

(** ** Basic facts about the primitives *)

Lemma byte_small (z : Z) : 0 ≤ z < 256 → byte z = z.
Proof. intros. unfold byte. by rewrite Z.mod_small. Qed.

Lemma byte_range (z : Z) : 0 ≤ byte z < 256.
Proof. unfold byte. apply Z.mod_pos_bound. lia. Qed.

Lemma index_Ok {A} (s : list A) (i : nat) (x : A) :
  s !! i = Some x → index s i = Ok x.
Proof. unfold index. by intros ->. Qed.

Lemma setSystemBytes_Ok (h systemBytes : list Z) :
  (4 ≤ length systemBytes)%nat →
  ∃ b0 b1 b2 b3,
    take 4 systemBytes = [b0; b1; b2; b3]
    ∧ setSystemBytes h systemBytes
      = Ok (<[9%nat := b3]> (<[8%nat := b2]> (<[7%nat := b1]> (<[6%nat := b0]> h)))).
Proof.
  intros Hlen.
  destruct systemBytes as [|b0 [|b1 [|b2 [|b3 rest]]]]; simpl in Hlen; try lia.
  exists b0, b1, b2, b3. split; [done|]. reflexivity.
Qed.

(** ** Induction on items *)

Lemma ItemNode_ind (P : ItemNode → Prop) :
  P emptyItemNode →
  (∀ values variables, Forall P values → P (ListNode values variables)) →
  (∀ value variable isValue, P (ASCIINode value variable isValue)) →
  (∀ values variables, P (BinaryNode values variables)) →
  (∀ values variables, P (BooleanNode values variables)) →
  (∀ byteSize values variables, P (FloatNode byteSize values variables)) →
  (∀ byteSize values variables, P (IntNode byteSize values variables)) →
  (∀ byteSize values variables, P (UintNode byteSize values variables)) →
  ∀ node, P node.
Proof.
  intros He Hl Ha Hb Hbo Hf Hi Hu.
  fix IH 1. intros node. destruct node as [|values variables| | | | | |].
  - exact He.
  - apply Hl. induction values as [|v vs IHvs]; constructor; [apply IH | apply IHvs].
  - apply Ha.
  - apply Hb.
  - apply Hbo.
  - apply Hf.
  - apply Hi.
  - apply Hu.
Qed.

Lemma getHeaderBytes_spec (typ : string) (size fc w : Z) :
  formatCode !! typ = Some fc →
  bytePerValue !! typ = Some w →
  0 ≤ fc < 64 →
  0 ≤ size * w ≤ MAX_BYTE_SIZE →
  ∃ lengthBytes,
    getHeaderBytes typ size = Some (fc * 4 + Z.of_nat (length lengthBytes) :: lengthBytes)
    ∧ length lengthBytes = minimalLengthBytes (size * w)
    ∧ BigEndian lengthBytes = size * w
    ∧ Forall (λ b, 0 ≤ b < 256) lengthBytes
    ∧ (size * w ≠ 0 → head lengthBytes ≠ Some 0)
    ∧ (size * w = 0 → lengthBytes = [0]).
Proof.
  intros Hfc Hw Hfcr Hn. unfold getHeaderBytes, getDataByteLength.
  rewrite Hfc, Hw. cbn [default from_option]. unfold id. set (n := size * w) in *.
  change MAX_BYTE_SIZE with 16777215 in *.
  rewrite bool_decide_false by lia.
  rewrite !Z.shiftr_div_pow2, Z.shiftl_mul_pow2 by lia.
  change (2 ^ 16) with 65536. change (2 ^ 8) with 256. change (2 ^ 2) with 4.
  unfold byte, minimalLengthBytes, BigEndian.
  assert (Ha : 0 ≤ n `div` 65536 < 256)
    by (split; [apply Z.div_pos; lia | apply Z.div_lt_upper_bound; lia]).
  rewrite (Z.mod_small (n `div` 65536)) by lia.
  pose proof (Z.mod_pos_bound (n `div` 256) 256 ltac:(lia)) as Hb.
  pose proof (Z.mod_pos_bound n 256 ltac:(lia)) as Hc.
  pose proof (Z.div_mod n 256 ltac:(lia)) as E1.
  pose proof (Z.div_mod (n `div` 256) 256 ltac:(lia)) as E2.
  assert (E3 : (n `div` 256) `div` 256 = n `div` 65536)
    by (rewrite Z.div_div by lia; reflexivity).
  rewrite E3 in E2.
  assert (Hbyte : ∀ k : nat, (k ≤ 3)%nat → (fc * 4 + Z.of_nat k) `mod` 256 = fc * 4 + Z.of_nat k)
    by (intros; apply Z.mod_small; lia).
  destruct (decide (n `div` 65536 = 0)) as [H0|H0];
    [destruct (decide ((n `div` 256) `mod` 256 = 0)) as [H1|H1]|].
  - exists [n `mod` 256].
    rewrite !bool_decide_true by (simpl; congruence). simpl.
    rewrite (Hbyte 1%nat) by lia.
    rewrite bool_decide_true by lia.
    repeat split; try done; try lia.
    + repeat constructor; lia.
    + intros ? [=]; lia.
    + intros; f_equal; lia.
  - exists [(n `div` 256) `mod` 256; n `mod` 256].
    rewrite bool_decide_true by (simpl; congruence).
    rewrite bool_decide_false by (simpl; congruence). simpl.
    rewrite (Hbyte 2%nat) by lia.
    rewrite bool_decide_false by lia. rewrite bool_decide_true by lia.
    repeat split; try done; try lia.
    + repeat constructor; lia.
    + intros ? [=]; lia.
  - exists [n `div` 65536; (n `div` 256) `mod` 256; n `mod` 256].
    rewrite bool_decide_false by (simpl; congruence). simpl.
    rewrite (Hbyte 3%nat) by lia.
    rewrite !bool_decide_false by lia.
    repeat split; try done; try lia.
    + repeat constructor; lia.
    + intros ? [=]; lia.
Qed.

(** ** Strings and runes *)

Lemma ascii_code_range (a : ascii) : 0 ≤ ascii_code a < 256.
Proof.
  unfold ascii_code. pose proof (N_ascii_bounded a). lia.
Qed.

Lemma string_bytes_range (s : string) : Forall (λ b, 0 ≤ b < 256) (string_bytes s).
Proof. induction s; constructor; auto using ascii_code_range. Qed.

Lemma length_string_bytes (s : string) :
  Z.of_nat (length (string_bytes s)) = len_string s.
Proof. unfold len_string. induction s; simpl; lia. Qed.

(** The first rune decoded from a byte that is not a 7-bit character
    is above 127: a rune of two to four bytes, or [RuneError]. *)
Lemma runes_head (b0 : Z) (r0 : list Z) :
  ¬ b0 < 128 → ∃ c rest, runes (b0 :: r0) = c :: rest ∧ 127 < c.
Proof.
  intros Hb0. cbn [runes]. rewrite (bool_decide_false (b0 < 128)) by done.
  unfold is_cont, RuneError.
  destruct r0 as [|b1 r1]; [eexists _, _; split; [reflexivity|lia]|].
  match goal with |- context [if ?c then _ else _] => destruct c eqn:E1 end.
  { eexists _, _; split; [reflexivity|].
    apply andb_prop in E1 as [?%bool_decide_eq_true ?%bool_decide_eq_true]. lia. }
  destruct r1 as [|b2 r2]; [eexists _, _; split; [reflexivity|lia]|].
  match goal with |- context [if ?c then _ else _] => destruct c eqn:E2 end.
  { eexists _, _; split; [reflexivity|].
    apply andb_prop in E2 as [[?%bool_decide_eq_true E2]%andb_prop ?%bool_decide_eq_true].
    apply bool_decide_eq_true in E2. repeat case_bool_decide; lia. }
  destruct r2 as [|b3 r3]; [eexists _, _; split; [reflexivity|lia]|].
  match goal with |- context [if ?c then _ else _] => destruct c eqn:E3 end.
  { eexists _, _; split; [reflexivity|].
    apply andb_prop in E3
      as [[[?%bool_decide_eq_true E3]%andb_prop ?%bool_decide_eq_true]%andb_prop
            ?%bool_decide_eq_true].
    apply bool_decide_eq_true in E3. repeat case_bool_decide; lia. }
  eexists _, _; split; [reflexivity|lia].
Qed.

Lemma runes_ascii (bs : list Z) :
  Forall (λ b, 0 ≤ b < 256) bs →
  forallb (λ ch, negb (bool_decide (ch > 127))) (runes bs) = true →
  runes bs = bs.
Proof.
  induction 1 as [|b0 r0 Hb0 Hr0 IH]; [done|].
  destruct (decide (b0 < 128)) as [Hlt|Hlt].
  - cbn [runes]. rewrite (bool_decide_true (b0 < 128)) by done.
    simpl. intros [_ ?]%andb_prop. f_equal. auto.
  - destruct (runes_head b0 r0 Hlt) as (c & rest & -> & Hc).
    simpl. rewrite (bool_decide_true (c > 127)) by lia. done.
Qed.

(** ** Encoding of items *)

Lemma has_variables_false (variables : gmap string nat) :
  has_variables variables = false ↔ variables = ∅.
Proof.
  unfold has_variables. rewrite negb_false_iff, bool_decide_eq_true.
  apply map_size_empty_iff.
Qed.

Lemma length_getVariableNames (variables : gmap string nat) :
  length (getVariableNames variables) = size variables.
Proof.
  unfold getVariableNames. rewrite length_fmap.
  rewrite (Permutation_length (merge_sort_Permutation _ _)).
  by rewrite length_map_to_list.
Qed.

Lemma getVariableNames_nil (variables : gmap string nat) :
  getVariableNames variables = [] ↔ variables = ∅.
Proof.
  rewrite <- map_size_empty_iff, <- length_getVariableNames.
  split; [by intros -> | by intros ?%nil_length_inv].
Qed.

Lemma length_bigEndianBytes (byteSize bits : Z) :
  0 ≤ byteSize → Z.of_nat (length (bigEndianBytes byteSize bits)) = byteSize.
Proof.
  intros. unfold bigEndianBytes.
  rewrite length_fmap, length_reverse, length_seqZ. lia.
Qed.

Lemma length_bind_const {A B} (f : A → list B) (l : list A) (k : Z) :
  (∀ x, Z.of_nat (length (f x)) = k) →
  Z.of_nat (length (l ≫= f)) = Z.of_nat (length l) * k.
Proof.
  intros Hf. induction l as [|x l IH]; [simpl; lia|].
  change ((x :: l) ≫= f) with (f x ++ (l ≫= f)).
  rewrite length_app, Nat2Z.inj_add, IH, (Hf x). simpl length. lia.
Qed.

Lemma ListNode_Variables_nil (rec : ItemNode → list string) posVar i items :
  ListNode_Variables rec posVar i items = [] →
  Forall (λ item, is_emptyItemNode item = false ∧ rec item = []) items.
Proof.
  revert i. induction items as [|item rest IH]; intros i; simpl; [constructor|].
  intros [H1 H2]%app_eq_nil. constructor; [|by eapply IH].
  destruct (is_emptyItemNode item); [done|done].
Qed.

Lemma ListNode_ToBytes_concat (rec : ItemNode → list Z) result items :
  Forall (λ item, rec item ≠ []) items →
  ListNode_ToBytes rec result items = result ++ concat (rec <$> items).
Proof.
  intros H. revert result. induction H as [|item rest Hne _ IH]; intros result; simpl.
  - by rewrite app_nil_r.
  - rewrite bool_decide_false by (by destruct (rec item)).
    rewrite IH. by rewrite <- app_assoc.
Qed.

Lemma ListNode_checkVariables_elem values entries ellipsisExist visited name p :
  ListNode_checkVariables values entries ellipsisExist visited = true →
  (name, p) ∈ entries →
  ∃ v, values !! p = Some v ∧ is_emptyItemNode v = true.
Proof.
  revert ellipsisExist visited.
  induction entries as [|[n q] rest IH]; intros e vis Hc Hin; [by inv Hin|].
  simpl in Hc. destruct (values !! q) as [v|] eqn:Hq; [|done].
  repeat (apply andb_prop in Hc as [Hc ?]).
  inv Hin; [eauto | by eapply IH].
Qed.

Lemma ListNode_no_variables values variables :
  ListNode_checkRep values variables = true →
  Variables (ListNode values variables) = [] →
  variables = ∅
  ∧ Forall (λ item, is_emptyItemNode item = false ∧ Variables item = []) values.
Proof.
  intros [Hc _]%andb_prop Hv. simpl in Hv.
  apply ListNode_Variables_nil in Hv. split; [|done].
  apply map_to_list_empty_iff.
  destruct (map_to_list variables) as [|[name p] rest] eqn:E; [done|].
  destruct (ListNode_checkVariables_elem _ _ _ _ name p Hc) as (v & Hp & Hv');
    [left|].
  rewrite Forall_forall in Hv.
  destruct (Hv v) as [? _]; [by eapply list_elem_of_lookup_2|congruence].
Qed.

(** The header and payload that [ToBytes] emits for an item of a type
    with fixed element width. *)
Lemma ToBytes_header_payload (typ : string) (size fc w : Z) (payload : list Z) :
  formatCode !! typ = Some fc →
  bytePerValue !! typ = Some w →
  0 ≤ fc < 64 →
  0 ≤ size →
  0 ≤ w →
  ¬ getDataByteLength typ size > MAX_BYTE_SIZE →
  Z.of_nat (length payload) = size * w →
  ∃ result lengthBytes,
    getHeaderBytes typ size = Some result
    ∧ result ++ payload = (fc * 4 + Z.of_nat (length lengthBytes)) :: lengthBytes ++ payload
    ∧ (let n := Z.of_nat (length payload) in
       0 ≤ n ≤ 2 ^ 24 - 1
       ∧ length lengthBytes = minimalLengthBytes n
       ∧ BigEndian lengthBytes = n
       ∧ Forall (λ b, 0 ≤ b < 256) lengthBytes
       ∧ (n ≠ 0 → head lengthBytes ≠ Some 0)
       ∧ (n = 0 → lengthBytes = [0])).
Proof.
  intros Hfc Hw Hfcr Hs Hw0 Hmax Hlen.
  unfold getDataByteLength in Hmax. rewrite Hw in Hmax. simpl in Hmax.
  destruct (getHeaderBytes_spec typ size fc w Hfc Hw Hfcr) as (lb & -> & ?);
    [change MAX_BYTE_SIZE with 16777215 in *; nia|].
  exists (fc * 4 + Z.of_nat (length lb) :: lb), lb. split; [done|]. split; [done|].
  simpl. rewrite Hlen. change MAX_BYTE_SIZE with 16777215 in *.
  change (2 ^ 24 - 1) with 16777215. split; [nia|done].
Qed.

Ltac scalar_header typ fc w :=
  match goal with
  | |- context [getHeaderBytes ?t ?size] =>
    change t with typ;
    let result := fresh "result" in
    let lb := fresh "lengthBytes" in
    let Hh := fresh "Hh" in
    let Heq := fresh "Heq" in
    let Hn := fresh "Hn" in
    edestruct (ToBytes_header_payload typ size fc w) as (result & lb & Hh & Heq & Hn);
    [reflexivity | reflexivity | lia | lia | lia | eassumption | |
     rewrite Hh; eexists fc, lb, _; split; [exact Heq|]; split; [lia|]; exact Hn]
  end.

(** C4 (as amended). For every item built by the factory methods that
    has no unfilled variable (and is not the empty sentinel), [ToBytes]
    emits a format byte [fmt * 4 + k], then [k] length bytes, then the
    payload, where [k] is 1 when [n <= 255], 2 when [n <= 65535] and 3
    otherwise, and the length bytes are the big-endian encoding of [n]
    without a leading zero byte (a single zero byte for [n = 0]); [n] is
    the number of payload bytes for every item type except the list, for
    which [n] is the number of direct children. *)
Theorem ToBytes_length_field (node : ItemNode) :
  wf node = true → Variables node = [] → node ≠ emptyItemNode →
  ∃ fmt lengthBytes payload,
    ToBytes node = (fmt * 4 + Z.of_nat (length lengthBytes)) :: lengthBytes ++ payload
    ∧ 0 ≤ fmt < 64
    ∧ (let n := if is_ListNode node then Size node else Z.of_nat (length payload) in
       0 ≤ n ≤ 2 ^ 24 - 1
       ∧ length lengthBytes = minimalLengthBytes n
       ∧ BigEndian lengthBytes = n
       ∧ Forall (λ b, 0 ≤ b < 256) lengthBytes
       ∧ (n ≠ 0 → head lengthBytes ≠ Some 0)
       ∧ (n = 0 → lengthBytes = [0])).
Proof.
  induction node as [|values variables IH|value variable isValue|values variables
    |values variables|byteSize values variables|byteSize values variables
    |byteSize values variables] using ItemNode_ind; intros Hwf Hvars Hne; [done|..].
  - (* list *)
    simpl in Hwf. apply andb_prop in Hwf as [[Hsize Hrep]%andb_prop Hch].
    apply negb_true_iff, bool_decide_eq_false in Hsize.
    destruct (ListNode_no_variables _ _ Hrep Hvars) as [-> Hitems].
    assert (Hnonempty : Forall (λ item, ToBytes item ≠ []) values).
    { rewrite Forall_forall in IH, Hitems |- *. intros item Hin.
      rewrite forallb_forall in Hch.
      destruct (Hitems item Hin) as [He Hv].
      destruct (IH item Hin) as (? & ? & ? & -> & _); [|done| |done].
      - apply Hch. by apply list_elem_of_In.
      - by intros ->. }
    cbn [ToBytes]. rewrite (proj2 (has_variables_false ∅)) by done.
    unfold getDataByteLength in Hsize. cbn [Size] in Hsize.
    assert (Hw : bytePerValue !! "list" = Some 1) by reflexivity.
    rewrite Hw in Hsize. cbn [default] in Hsize. unfold id in Hsize.
    change MAX_BYTE_SIZE with 16777215 in *.
    destruct (getHeaderBytes_spec "list" (Z.of_nat (length values)) 0 1)
      as (lb & Hh & Hn); [reflexivity|reflexivity|lia|
      change MAX_BYTE_SIZE with 16777215; lia|].
    cbn [Size]. rewrite Hh. rewrite ListNode_ToBytes_concat by done.
    exists 0, lb, (concat (ToBytes <$> values)). split; [done|]. split; [lia|].
    cbn [is_ListNode]. rewrite Z.mul_1_r in Hn.
    split; [|exact Hn].
    change (2 ^ 24 - 1) with 16777215. lia.
  - (* ascii *)
    simpl in Hvars. destruct isValue; [|done].
    simpl in Hwf. apply andb_prop in Hwf as [Hsize [_ Hascii]%andb_prop].
    apply negb_true_iff, bool_decide_eq_false in Hsize.
    cbn [ToBytes negb Size is_ListNode].
    rewrite (runes_ascii _ (string_bytes_range value) Hascii).
    cbn [Size andb] in Hsize. rewrite <- length_string_bytes in *.
    scalar_header "ascii" 16 1.
    rewrite length_fmap. lia.
  - (* binary *)
    apply getVariableNames_nil in Hvars as ->.
    simpl in Hwf. apply andb_prop in Hwf as [Hsize _].
    apply negb_true_iff, bool_decide_eq_false in Hsize.
    cbn [ToBytes Size is_ListNode]. rewrite (proj2 (has_variables_false ∅)) by done.
    scalar_header "binary" 8 1. rewrite length_fmap. lia.
  - (* boolean *)
    apply getVariableNames_nil in Hvars as ->.
    simpl in Hwf. apply andb_prop in Hwf as [Hsize _].
    apply negb_true_iff, bool_decide_eq_false in Hsize.
    cbn [ToBytes Size is_ListNode]. rewrite (proj2 (has_variables_false ∅)) by done.
    scalar_header "boolean" 9 1. rewrite length_fmap. lia.
  - (* float *)
    apply getVariableNames_nil in Hvars as ->.
    simpl in Hwf. apply andb_prop in Hwf as [Hsize [[Hbs _]%andb_prop _]%andb_prop].
    apply negb_true_iff, bool_decide_eq_false in Hsize.
    apply bool_decide_eq_true in Hbs.
    cbn [ToBytes Size is_ListNode]. rewrite (proj2 (has_variables_false ∅)) by done.
    destruct Hbs as [->| ->].
    + rewrite bool_decide_true by done.
      scalar_header "f4" 36 4.
      rewrite (length_bind_const _ _ 4); [lia|].
      intros; by apply length_bigEndianBytes.
    + rewrite bool_decide_false by done.
      scalar_header "f8" 32 8.
      rewrite (length_bind_const _ _ 8); [lia|].
      intros; by apply length_bigEndianBytes.
  - (* int *)
    apply getVariableNames_nil in Hvars as ->.
    simpl in Hwf. apply andb_prop in Hwf as [Hsize [[Hbs _]%andb_prop _]%andb_prop].
    apply negb_true_iff, bool_decide_eq_false in Hsize.
    apply bool_decide_eq_true in Hbs.
    cbn [ToBytes Size is_ListNode]. rewrite (proj2 (has_variables_false ∅)) by done.
    destruct Hbs as [->|[->|[->| ->]]].
    + scalar_header "i1" 25 1.
      rewrite (length_bind_const _ _ 1); [lia|].
      intros; by apply length_bigEndianBytes.
    + scalar_header "i2" 26 2.
      rewrite (length_bind_const _ _ 2); [lia|].
      intros; by apply length_bigEndianBytes.
    + scalar_header "i4" 28 4.
      rewrite (length_bind_const _ _ 4); [lia|].
      intros; by apply length_bigEndianBytes.
    + scalar_header "i8" 24 8.
      rewrite (length_bind_const _ _ 8); [lia|].
      intros; by apply length_bigEndianBytes.
  - (* uint *)
    apply getVariableNames_nil in Hvars as ->.
    simpl in Hwf. apply andb_prop in Hwf as [Hsize [[Hbs _]%andb_prop _]%andb_prop].
    apply negb_true_iff, bool_decide_eq_false in Hsize.
    apply bool_decide_eq_true in Hbs.
    cbn [ToBytes Size is_ListNode]. rewrite (proj2 (has_variables_false ∅)) by done.
    destruct Hbs as [->|[->|[->| ->]]].
    + scalar_header "u1" 41 1.
      rewrite (length_bind_const _ _ 1); [lia|].
      intros; by apply length_bigEndianBytes.
    + scalar_header "u2" 42 2.
      rewrite (length_bind_const _ _ 2); [lia|].
      intros; by apply length_bigEndianBytes.
    + scalar_header "u4" 44 4.
      rewrite (length_bind_const _ _ 4); [lia|].
      intros; by apply length_bigEndianBytes.
    + scalar_header "u8" 40 8.
      rewrite (length_bind_const _ _ 8); [lia|].
      intros; by apply length_bigEndianBytes.
Qed.

Lemma ToBytes_length_field_witness :
  ∃ fmt lengthBytes payload,
    ToBytes (IntNode 8 (replicate 40 7) ∅)
    = (fmt * 4 + Z.of_nat (length lengthBytes)) :: lengthBytes ++ payload
    ∧ 0 ≤ fmt < 64
    ∧ (let n := if is_ListNode (IntNode 8 (replicate 40 7) ∅)
                then Size (IntNode 8 (replicate 40 7) ∅)
                else Z.of_nat (length payload) in
       0 ≤ n ≤ 2 ^ 24 - 1
       ∧ length lengthBytes = minimalLengthBytes n
       ∧ BigEndian lengthBytes = n
       ∧ Forall (λ b, 0 ≤ b < 256) lengthBytes
       ∧ (n ≠ 0 → head lengthBytes ≠ Some 0)
       ∧ (n = 0 → lengthBytes = [0])).
Proof.
  apply (ToBytes_length_field (IntNode 8 (replicate 40 7) ∅));
    [vm_compute; reflexivity | vm_compute; reflexivity | discriminate].
Defined.

(** C4, counterexample: the payload of the list [<L <L[0]>>] occupies
    two bytes, but its length byte is 1, the number of children. *)
Lemma ToBytes_list_length_counts_children :
  ∃ payload,
    ToBytes (ListNode [ListNode [] ∅] ∅) = 1 :: [1] ++ payload
    ∧ length payload = 2%nat
    ∧ BigEndian [1] ≠ Z.of_nat (length payload).
Proof. exists [1; 0]. split; [vm_compute; reflexivity|]. split; [done|]. vm_compute. discriminate. Qed.

(** ** Encoders never panic *)



Lemma DataMessage_checkRep_inv (node : DataMessage) :
  DataMessage_checkRep node = true →
  (0 ≤ stream node < 128)
  ∧ (0 ≤ function node < 256)
  ∧ ¬ (waitBit node = 1 ∧ Z.rem (function node) 2 = 0)
  ∧ (0 ≤ waitBit node ≤ 2)
  ∧ (-1 ≤ sessionID node < 65536)
  ∧ length (systemBytes node) = 4%nat.
Proof.
  unfold DataMessage_checkRep. intros H.
  repeat (apply andb_prop in H as [H ?]).
  repeat match goal with
  | H : bool_decide _ = true |- _ => apply bool_decide_eq_true in H
  | H : negb _ = true |- _ => apply negb_true_iff in H
  end.
  repeat split; try lia.
  intros [? ?].
  match goal with H : _ && _ = false |- _ =>
    rewrite !bool_decide_true in H by done; done end.
Qed.



(** With the data item [nil], [ToBytes] returns the empty sequence when
    the wait bit is optional and panics otherwise, in the call
    [node.dataItem.Variables()]. *)
Lemma DataMessage_ToBytes_nil (node : DataMessage) :
  DataMessage_checkRep node = true →
  dataItem node = None →
  DataMessage_ToBytes node = if bool_decide (waitBit node = 2) then Ok [] else Panic.
Proof.
  intros Hrep Hd.
  destruct (DataMessage_checkRep_inv node Hrep) as (_ & _ & _ & Hw & _).
  unfold DataMessage_ToBytes, WaitBit, DataMessage_Variables. rewrite Hd.
  assert (Hw' : waitBit node = 0 ∨ waitBit node = 1 ∨ waitBit node = 2) by lia.
  destruct Hw' as [->|[->| ->]]; reflexivity.
Qed.


(** ** The wait-bit invariant of data messages *)

Lemma checked_Ok (message m : DataMessage) :
  checked message = Ok m → m = message ∧ DataMessage_checkRep m = true.
Proof.
  unfold checked. destruct (DataMessage_checkRep message) eqn:E; [|done].
  by intros [= <-].
Qed.

Lemma bind_Ok {A B} (f : A → result B) (r : result A) (b : B) :
  r ≫= f = Ok b → ∃ a, r = Ok a ∧ f a = Ok b.
Proof. destruct r; simpl; [eauto|done|done]. Qed.

Lemma reachable_checkRep (m : DataMessage) :
  reachable m → DataMessage_checkRep m = true.
Proof.
  induction 1 as [? ? ? ? ? ? m H|? ? ? ? ? ? ? ? m H|node w m _ IH H
                  |node s sb m _ IH H|fuel node values m _ IH H].
  - by apply checked_Ok in H as [_ ?].
  - unfold NewHSMSDataMessage in H.
    repeat (case_match; [done|]).
    apply bind_Ok in H as (item & _ & H).
    case_match; [done|]. by apply checked_Ok in H as [_ ?].
  - unfold SetWaitBit in H. case_match.
    + by injection H as <-.
    + by apply checked_Ok in H as [_ ?].
  - by apply checked_Ok in H as [_ ?].
  - unfold DataMessage_FillVariables in H.
    apply bind_Ok in H as (item0 & _ & H).
    apply bind_Ok in H as (item & _ & H). by apply checked_Ok in H as [_ ?].
Qed.

(** C9. Every data message produced by [NewDataMessage],
    [NewHSMSDataMessage], [SetWaitBit], [SetSessionIDAndSystemBytes] or
    [FillVariables] (each of which either returns a message that passed
    [checkRep] or panics) satisfies: wait bit true implies an odd function
    code, and an even function code implies wait bit false or optional. *)
Theorem reachable_wait_bit (m : DataMessage) :
  reachable m →
  (waitBit m = 1 → Z.odd (function m) = true)
  ∧ (Z.even (function m) = true → waitBit m = 0 ∨ waitBit m = 2).
Proof.
  intros Hr. apply reachable_checkRep, DataMessage_checkRep_inv in Hr
    as (_ & Hf & Hw & Hwr & _).
  rewrite Z.rem_mod_nonneg in Hw by lia.
  rewrite Zmod_even in Hw.
  rewrite <- Z.negb_even.
  destruct (Z.even (function m)); split; intros; try done; lia.
Qed.

Lemma reachable_wait_bit_witness :
  (waitBit example_message = 1 → Z.odd (function example_message) = true)
  ∧ (Z.even (function example_message) = true →
     waitBit example_message = 0 ∨ waitBit example_message = 2).
Proof.
  apply (reachable_wait_bit example_message).
  apply (reach_NewHSMSDataMessage EmptyString 1 1 1 "H<->E"
           (Some (ASCIINode "text" zeroVariable true)) 1 [0; 0; 0; 1]).
  vm_compute. reflexivity.
Defined.

(** ** The decoder terminates *)

Lemma terminates_bind {A B} (f : A → result B) (r : result A) :
  terminates r → (∀ a, r = Ok a → terminates (f a)) → terminates (r ≫= f).
Proof.
  unfold terminates. destruct r; simpl; intros Hr Hf; [by apply Hf|done|done].
Qed.

Lemma terminates_index {A} (s : list A) i : terminates (index s i).
Proof. unfold index, terminates. by destruct (s !! i). Qed.

Lemma terminates_slice {A} (s : list A) lo hi : terminates (slice s lo hi).
Proof. unfold slice, terminates. by case_bool_decide. Qed.

Lemma terminates_collect {T} (classify : any → result (slot T)) zero i values nv nvars :
  (∀ v, terminates (classify v)) →
  terminates (collect classify zero i values nv nvars).
Proof.
  intros Hc. revert i nv nvars.
  induction values as [|v values IH]; intros i nv nvars; simpl; [done|].
  apply terminates_bind; [apply Hc|]. intros [t|name] _; [apply IH|].
  case_bool_decide; [done|apply IH].
Qed.

Ltac terminates_factory :=
  repeat first
    [ progress intros
    | done
    | apply terminates_bind
    | apply terminates_collect
    | apply terminates_index
    | apply terminates_slice
    | case_bool_decide
    | case_match ].

Lemma terminates_NewListNode values : terminates (NewListNode values).
Proof. unfold NewListNode, classifyList. terminates_factory. Qed.
Lemma terminates_NewASCIINode str : terminates (NewASCIINode str).
Proof. unfold NewASCIINode. terminates_factory. Qed.
Lemma terminates_NewBinaryNode values : terminates (NewBinaryNode values).
Proof. unfold NewBinaryNode, classifyBinary. terminates_factory. Qed.
Lemma terminates_NewBooleanNode values : terminates (NewBooleanNode values).
Proof. unfold NewBooleanNode, classifyBoolean. terminates_factory. Qed.
Lemma terminates_NewFloatNode b values : terminates (NewFloatNode b values).
Proof. unfold NewFloatNode, classifyFloat. terminates_factory. Qed.
Lemma terminates_NewIntNode b values : terminates (NewIntNode b values).
Proof. unfold NewIntNode, classifyInt. terminates_factory. Qed.
Lemma terminates_NewUintNode b values : terminates (NewUintNode b values).
Proof. unfold NewUintNode, classifyUint. terminates_factory. Qed.

Lemma terminates_readValues input pos byteSize conv n i :
  terminates (readValues input pos byteSize conv n i).
Proof.
  revert i. induction n as [|n IH]; intros i; simpl; [done|].
  apply terminates_bind; [apply terminates_slice|]. intros bs _.
  apply terminates_bind; [apply IH|]. done.
Qed.

Lemma terminates_parseValues p byteSize length conv factory :
  (∀ vs, terminates (factory vs)) →
  terminates (parseValues p byteSize length conv factory).
Proof.
  intros Hf. unfold parseValues. case_match; [done|].
  apply terminates_bind; [apply terminates_readValues|]. intros vs _.
  apply terminates_bind; [apply Hf|]. done.
Qed.

Lemma parseValues_pos p byteSize length conv factory item ok p' :
  parseValues p byteSize length conv factory = Ok (item, ok, p') →
  input p' = input p ∧ msgLength p' = msgLength p ∧ (pos p ≤ pos p')%nat.
Proof.
  unfold parseValues. case_match; [by intros [= <- <- <-]|].
  intros (vs & _ & (node & _ & [= <- <- <-])%bind_Ok)%bind_Ok.
  simpl. repeat split; lia.
Qed.

Lemma parseChildren_pos rec n p values r p' :
  (∀ p item ok p', rec p = Ok (item, ok, p') →
     input p' = input p ∧ msgLength p' = msgLength p ∧ (pos p ≤ pos p')%nat) →
  parseChildren rec n p values = Ok (r, p') →
  input p' = input p ∧ msgLength p' = msgLength p ∧ (pos p ≤ pos p')%nat.
Proof.
  intros Hrec. revert p values.
  induction n as [|n IH]; intros p values; simpl.
  - by intros [= <- <-].
  - intros ([[item ok] p1] & H1 & H2)%bind_Ok.
    apply Hrec in H1 as (Hi & Hm & Hp). destruct ok; simpl in H2.
    + apply IH in H2 as (? & ? & ?). repeat split; [congruence..|lia].
    + injection H2 as <- <-. done.
Qed.

Lemma parseMessageText_pos fuel p item ok p' :
  parseMessageText fuel p = Ok (item, ok, p') →
  input p' = input p ∧ msgLength p' = msgLength p ∧ (pos p ≤ pos p')%nat.
Proof.
  revert p item ok p'. induction fuel as [|fuel IH]; intros p item ok p'; [done|].
  simpl. case_bool_decide; [by intros [= <- <- <-]|].
  intros (b & _ & Hparse)%bind_Ok.
  case_bool_decide; [by injection Hparse as <- <- <-|].
  apply bind_Ok in Hparse as (lengthBytes & _ & Hparse).
  unfold parseFloat, parseInt, parseUint in Hparse.
  repeat (case_bool_decide;
    [first [ apply parseValues_pos in Hparse as (? & ? & ?); simpl in *;
             repeat split; [done..|lia]
           | idtac ] | ]).
  all: try (apply bind_Ok in Hparse as (bs & _ & (node & _ & [= <- <- <-])%bind_Ok);
            simpl; repeat split; lia).
  all: try (injection Hparse as <- <- <-; simpl; repeat split; lia).
  apply bind_Ok in Hparse as ([r p1] & Hch & Hrest).
  apply parseChildren_pos in Hch as (? & ? & ?); [|exact IH]. simpl in *.
  destruct r; [apply bind_Ok in Hrest as (node & _ & [= <- <- <-])
              |injection Hrest as <- <- <-];
    repeat split; try done; lia.
Qed.

Lemma terminates_parseChildren rec n p values :
  (∀ p1 item ok p', rec p1 = Ok (item, ok, p') →
     input p' = input p1 ∧ msgLength p' = msgLength p1 ∧ (pos p1 ≤ pos p')%nat) →
  (∀ p1, input p1 = input p → (pos p ≤ pos p1)%nat → terminates (rec p1)) →
  terminates (parseChildren rec n p values).
Proof.
  intros Hpos. revert p values.
  induction n as [|n IH]; intros p values Hrec; simpl; [done|].
  apply terminates_bind; [by apply Hrec|].
  intros [[item ok] p1] H1. apply Hpos in H1 as (Hi & _ & Hp).
  destruct ok; simpl; [|done].
  apply IH. intros p2 Hi2 Hp2. apply Hrec; [congruence|lia].
Qed.

Lemma terminates_parseMessageText fuel p :
  (0 < fuel)%nat →
  (length (input p) < pos p + fuel)%nat →
  terminates (parseMessageText fuel p).
Proof.
  revert p. induction fuel as [|fuel IH]; intros p Hpos Hfuel; [lia|].
  simpl. case_bool_decide; [done|].
  apply terminates_bind; [apply terminates_index|]. intros b Hb.
  assert (Hlt : (pos p < length (input p))%nat).
  { unfold index in Hb. destruct (input p !! pos p) eqn:E; [|done].
    by eapply lookup_lt_Some. }
  case_bool_decide; [done|].
  apply terminates_bind; [apply terminates_slice|]. intros lengthBytes _.
  unfold parseFloat, parseInt, parseUint.
  repeat (case_bool_decide;
    [first [ apply terminates_parseValues;
             auto using terminates_NewFloatNode, terminates_NewIntNode,
               terminates_NewUintNode
           | idtac ] | ]).
  all: try (apply terminates_bind; [apply terminates_slice|]; intros bs _;
            apply terminates_bind;
            [first [apply terminates_NewASCIINode | apply terminates_NewBinaryNode
                   | apply terminates_NewBooleanNode]|]; done).
  all: try done.
  apply terminates_bind.
  - apply terminates_parseChildren; [apply parseMessageText_pos|].
    simpl. intros p1 Hi Hp. apply IH; [lia|]. rewrite Hi. lia.
  - intros [[values|] p1] _; [|done].
    apply terminates_bind; [apply terminates_NewListNode|]. done.
Qed.

Lemma terminates_parseMessage fuel p :
  (0 < fuel)%nat →
  (length (input p) < pos p + 10 + fuel)%nat →
  terminates (parseMessage fuel p).
Proof.
  intros Hfuel Hlen. unfold parseMessage.
  apply terminates_bind; [apply terminates_slice|]. intros headerBytes _.
  apply terminates_bind; [apply terminates_index|]. intros h4 _.
  destruct (negb (bool_decide (h4 = 0))); [done|].
  apply terminates_bind; [apply terminates_index|]. intros h5 _.
  destruct (bool_decide (h5 = sTypeDataMessage)).
  - apply terminates_bind; [apply terminates_index|]. intros h2 _.
    apply terminates_bind; [apply terminates_index|]. intros h3 _.
    apply terminates_bind; [apply terminates_slice|]. intros sys _.
    apply terminates_bind.
    + apply terminates_parseMessageText; simpl; lia.
    + intros [[item ok] p1] _. destruct ok; simpl; [|done].
      apply terminates_bind; [|done].
      unfold NewHSMSDataMessage, checked.
      cbn [deref mbind result_mbind result_bind]. repeat case_match; done.
  - case_bool_decide; [|done].
    apply terminates_bind; [|done].
    unfold NewHSMSControlMessage. by case_bool_decide.
Qed.

Lemma terminates_Parse (bs : list Z) : terminates (Parse bs).
Proof.
  unfold Parse. destruct (parseMessageLength _) as [ok p] eqn:E.
  destruct ok; simpl; [|done].
  unfold parseMessageLength in E. simpl in E.
  case_bool_decide; [done|]. injection E as _ <-.
  pose proof (terminates_parseMessage (S (length bs))
    (mkParser bs 4 (BigEndian (take 4 bs)) None)) as Ht.
  destruct (parseMessage _ _) as [[[] ?]| |]; try done.
  exfalso. apply Ht; simpl; [lia|lia|done].
Qed.

(** ** Wait bit on a reply message *)

Lemma NewHSMSDataMessage_reply_wait name stream function direction dataItem
    sessionID systemBytes :
  Z.rem function 2 = 0 →
  NewHSMSDataMessage name stream function 1 direction dataItem sessionID systemBytes
  = Panic.
Proof.
  intros Hf. unfold NewHSMSDataMessage, checked, DataMessage_checkRep.
  destruct dataItem as [item|]; simpl; [|repeat case_match; done].
  repeat (case_match; [done|]).
  rewrite (bool_decide_true (Z.rem function 2 = 0)) by done.
  by rewrite !andb_false_r.
Qed.

(** C10. For every byte sequence whose SType byte (offset 9) is 0, whose
    byte at offset 6 has the wait bit 0x80 set and whose function byte at
    offset 7 is even, [Parse] returns [ok = false]: either the frame is
    refused before the message is built, or [NewHSMSDataMessage] panics
    and the panic is recovered. This covers in particular the frames with
    PType 0 and a correct length prefix. *)
Theorem Parse_reply_with_wait_bit (bs : list Z) (b6 b7 : Z) :
  Forall (λ b, 0 ≤ b < 256) bs →
  bs !! 9%nat = Some 0 →
  bs !! 6%nat = Some b6 → 128 ≤ b6 →
  bs !! 7%nat = Some b7 → Z.even b7 = true →
  Parse bs = Ok None.
Proof.
  intros Hbytes H9 H6 Hw H7 He.
  pose proof (terminates_Parse bs) as Ht. unfold Parse in *.
  destruct (parseMessageLength _) as [ok p] eqn:E.
  destruct ok; simpl in *; [|done].
  unfold parseMessageLength in E. simpl in E.
  case_bool_decide as Hlen; [done|]. injection E as _ <-.
  destruct (parseMessage _ _) as [[[] p']| |] eqn:Hp; try done.
  exfalso. unfold parseMessage in Hp. simpl input in Hp. simpl pos in Hp.
  apply bind_Ok in Hp as (headerBytes & Hh & Hp).
  unfold slice in Hh. rewrite bool_decide_true in Hh by lia.
  injection Hh as <-.
  assert (Hl : ∀ i, (i < 10)%nat → take (4 + 10 - 4) (drop 4 bs) !! i = bs !! (4 + i)%nat).
  { intros i Hi. rewrite lookup_take_lt by lia. by rewrite lookup_drop. }
  apply bind_Ok in Hp as (h4 & _ & Hp).
  destruct (negb (bool_decide (h4 = 0))); [done|].
  apply bind_Ok in Hp as (h5 & Hh5 & Hp).
  unfold index in Hh5. rewrite Hl in Hh5 by lia. simpl in Hh5. rewrite H9 in Hh5.
  injection Hh5 as <-.
  rewrite bool_decide_true in Hp by done.
  apply bind_Ok in Hp as (h2 & Hh2 & Hp).
  unfold index in Hh2. rewrite Hl in Hh2 by lia. simpl in Hh2. rewrite H6 in Hh2.
  injection Hh2 as <-.
  apply bind_Ok in Hp as (h3 & Hh3 & Hp).
  unfold index in Hh3. rewrite Hl in Hh3 by lia. simpl in Hh3. rewrite H7 in Hh3.
  injection Hh3 as <-.
  apply bind_Ok in Hp as (sys & _ & Hp).
  apply bind_Ok in Hp as ([[item ok] p1] & _ & Hp).
  destruct ok; simpl in Hp; [|done].
  apply bind_Ok in Hp as (m & Hm & _).
  assert (Hb6 : b6 ≫ 7 = 1).
  { rewrite Forall_forall in Hbytes.
    assert (0 ≤ b6 < 256) by (apply Hbytes; by eapply list_elem_of_lookup_2).
    rewrite Z.shiftr_div_pow2 by lia. change (2 ^ 7) with 128.
    symmetry. apply Z.div_unique with (r := b6 - 128); lia. }
  rewrite Hb6, NewHSMSDataMessage_reply_wait in Hm; [done|].
  rewrite Forall_forall in Hbytes.
  assert (0 ≤ b7 < 256) by (apply Hbytes; by eapply list_elem_of_lookup_2).
  rewrite Z.rem_mod_nonneg by lia. rewrite Zmod_even. by rewrite He.
Qed.

Lemma Parse_reply_with_wait_bit_witness :
  Parse [0; 0; 0; 12; 0; 1; 129; 2; 0; 0; 0; 0; 0; 1; 33; 0] = Ok None.
Proof.
  apply (Parse_reply_with_wait_bit
           [0; 0; 0; 12; 0; 1; 129; 2; 0; 0; 0; 0; 0; 1; 33; 0] 129 2);
    [repeat constructor; lia | reflexivity | reflexivity | lia
    | reflexivity | reflexivity].
Defined.

(** ** The length of an item as read by the decoder *)

(** What the length loop computes: the shift is done in 8 bits, so only
    the byte shifted by 0, the last one, contributes. *)
Lemma lengthOf_last (lengthBytesCount i : Z) (lengthBytes : list Z) (acc : Z) :
  Forall (λ b, 0 ≤ b < 256) lengthBytes →
  lengthBytesCount = i + Z.of_nat (length lengthBytes) →
  0 ≤ i →
  lengthOf lengthBytesCount i lengthBytes acc = acc + default 0 (last lengthBytes).
Proof.
  intros Hb. revert i acc.
  induction Hb as [|b rest Hb _ IH]; intros i acc Hn Hi; simpl; [lia|].
  rewrite IH by (simpl in Hn; lia).
  destruct rest as [|b' rest'].
  - simpl in *. replace (lengthBytesCount - i - 1) with 0 by lia.
    rewrite Z.shiftl_0_r, byte_small by lia. lia.
  - assert (byte (b ≪ ((lengthBytesCount - i - 1) * 8)) = 0) as ->.
    { unfold byte. simpl in Hn.
      rewrite Z.shiftl_mul_pow2 by lia.
      replace ((lengthBytesCount - i - 1) * 8)
        with (8 + (lengthBytesCount - i - 2) * 8) by lia.
      rewrite Z.pow_add_r by lia. change (2 ^ 8) with 256.
      rewrite Z.mul_assoc, (Z.mul_comm b 256), <- Z.mul_assoc.
      rewrite Z.mul_comm. apply Z.mod_mul. lia. }
    simpl. lia.
Qed.

(** C2, at the failing input: for the item [42 01 00] followed by 256
    bytes of payload (an ASCII item of 256 characters), the two length
    bytes denote 256 in big-endian order, but the decoder reads length 0
    and returns the empty ASCII item. *)
Theorem parseMessageText_two_length_bytes :
  BigEndian [1; 0] = 256
  ∧ lengthOf 2 0 [1; 0] 0 = 0
  ∧ parseMessageText 1 (mkParser ([66; 1; 0] ++ replicate 256 97) 0 269 None)
    = Ok (ASCIINode EmptyString zeroVariable true, true,
          mkParser ([66; 1; 0] ++ replicate 256 97) 3 269 None).
Proof. vm_compute. done. Qed.

(** ** Decoding what was encoded *)

(** C1, at the failing input: the message [S1F1 W] with an ASCII item of
    256 characters is built by the factory methods and encoded to a frame
    of 273 bytes; decoding the frame succeeds but returns a message whose
    item is the empty ASCII string. *)
Theorem Parse_ToBytes_long_ascii :
  (item ← NewASCIINode long_text;
   NewHSMSDataMessage EmptyString 1 1 1 "H<->E" (Some item) 1 [0; 0; 0; 1])
  = Ok long_message
  ∧ (bs ← DataMessage_ToBytes long_message; Parse bs)
    = Ok (Some (DataMsg (mkDataMessage EmptyString 1 1 1 "H<->E"
                           (Some (ASCIINode EmptyString zeroVariable true))
                           1 [0; 0; 0; 1])))
  ∧ Some (ASCIINode EmptyString zeroVariable true) ≠ dataItem long_message.
Proof. split; [vm_compute; reflexivity|]. split; [vm_compute; reflexivity|]. discriminate. Qed.

(** A second input on which decoding does not return the message: the
    decoder passes the elements of a binary item as [uint8], which
    [NewBinaryNode] refuses. *)
Lemma Parse_ToBytes_binary :
  (item ← NewBinaryNode [AInt Tint 1];
   m ← NewHSMSDataMessage EmptyString 1 1 1 "H<->E" (Some item) 1 [0; 0; 0; 1];
   bs ← DataMessage_ToBytes m;
   Parse bs) = Ok None.
Proof. vm_compute. reflexivity. Qed.

Lemma Parse_control (h : list Z) (sType : Z) :
  length h = 10%nat →
  h !! 4%nat = Some 0 →
  h !! 5%nat = Some sType →
  sType ∈ [1; 2; 3; 4; 5; 6; 7; 9] →
  Parse (ControlMessage_ToBytes (mkControlMessage h))
  = Ok (Some (ControlMsg (mkControlMessage h))).
Proof.
  intros Hlen H4 H5 Hs.
  destruct h as [|a0 [|a1 [|a2 [|a3 [|a4 [|a5 [|a6 [|a7 [|a8 [|a9 [|]]]]]]]]]]];
    try done.
  simpl in H4, H5. injection H4 as ->. injection H5 as ->.
  repeat (apply elem_of_cons in Hs as [->|Hs]); [..|by apply elem_of_nil in Hs];
    reflexivity.
Qed.

Lemma setSystemBytes_inv (h systemBytes h' : list Z) :
  setSystemBytes h systemBytes = Ok h' →
  length h' = length h
  ∧ (∀ i, (i < 6)%nat → h' !! i = h !! i).
Proof.
  unfold setSystemBytes.
  intros (b0 & _ & (b1 & _ & (b2 & _ & (b3 & _ & [= <-])%bind_Ok)%bind_Ok)%bind_Ok)%bind_Ok.
  split; [by rewrite !length_insert|].
  intros i Hi. by rewrite !list_lookup_insert_ne by lia.
Qed.

Lemma copyFromReq_inv (req : ControlMessage) (indices : list nat) (dst h' : list Z) :
  copyFromReq dst req indices = Ok h' →
  length h' = length dst
  ∧ (∀ i, i ∉ indices → h' !! i = dst !! i).
Proof.
  unfold copyFromReq. revert dst.
  induction indices as [|i indices IH]; intros dst; simpl.
  - by intros [= <-].
  - destruct (index (header req) i) as [b| |] eqn:E; simpl.
    + intros H. apply IH in H as [Hl Hi]. rewrite length_insert in Hl.
      split; [done|]. intros j Hj. rewrite Hi by set_solver.
      apply list_lookup_insert_ne. set_solver.
    + intros H. exfalso. revert H. clear. induction indices as [|? ? IH']; simpl; [done|auto].
    + intros H. exfalso. revert H. clear. induction indices as [|? ? IH']; simpl; [done|auto].
Qed.

Lemma constructed_header (msg : ControlMessage) :
  constructed msg →
  length (header msg) = 10%nat
  ∧ header msg !! 4%nat = Some 0
  ∧ ∃ sType, header msg !! 5%nat = Some sType ∧ sType ∈ [1; 2; 3; 4; 5; 6; 7; 9].
Proof.
  intros Hc. destruct Hc as [? ? msg H|req ? msg _ H|? ? msg H|req ? msg _ H
                            |? msg H|req msg _ H|? ? ? ? ? msg H|? ? msg H].
  - unfold NewHSMSMessageSelectReq in H.
    apply bind_Ok in H as (h & [Hl Hi]%setSystemBytes_inv & [= <-]). simpl.
    rewrite Hl, !Hi by lia. split; [done|]; split; [done|]; eexists; split; [done|set_solver].
  - unfold NewHSMSMessageSelectRsp in H.
    apply bind_Ok in H as (typ & _ & H). case_match; [done|].
    apply bind_Ok in H as (h1 & [Hl1 Hi1]%copyFromReq_inv & H).
    apply bind_Ok in H as (h2 & [Hl2 Hi2]%copyFromReq_inv & [= <-]). simpl.
    rewrite Hl2, !length_insert, Hl1, !Hi2 by set_solver.
    rewrite list_lookup_insert_ne by lia.
    rewrite list_lookup_insert_ne by lia.
    rewrite list_lookup_insert_eq by (rewrite length_insert, Hl1; simpl; lia).
    rewrite Hi1 by set_solver.
    split; [done|]; split; [done|]; eexists; split; [done|set_solver].
  - unfold NewHSMSMessageDeselectReq in H.
    apply bind_Ok in H as (h & [Hl Hi]%setSystemBytes_inv & [= <-]). simpl.
    rewrite Hl, !Hi by lia. split; [done|]; split; [done|]; eexists; split; [done|set_solver].
  - unfold NewHSMSMessageDeselectRsp in H.
    apply bind_Ok in H as (typ & _ & H). case_match; [done|].
    apply bind_Ok in H as (h1 & [Hl1 Hi1]%copyFromReq_inv & H).
    apply bind_Ok in H as (h2 & [Hl2 Hi2]%copyFromReq_inv & [= <-]). simpl.
    rewrite Hl2, !length_insert, Hl1, !Hi2 by set_solver.
    rewrite list_lookup_insert_ne by lia.
    rewrite list_lookup_insert_ne by lia.
    rewrite list_lookup_insert_eq by (rewrite length_insert, Hl1; simpl; lia).
    rewrite Hi1 by set_solver.
    split; [done|]; split; [done|]; eexists; split; [done|set_solver].
  - unfold NewHSMSMessageLinktestReq in H.
    apply bind_Ok in H as (h & [Hl Hi]%setSystemBytes_inv & [= <-]). simpl.
    rewrite Hl, !Hi by lia. split; [done|]; split; [done|]; eexists; split; [done|set_solver].
  - unfold NewHSMSMessageLinktestRsp in H.
    apply bind_Ok in H as (typ & _ & H). case_match; [done|].
    apply bind_Ok in H as (h2 & [Hl2 Hi2]%copyFromReq_inv & [= <-]). simpl.
    rewrite Hl2, !Hi2 by set_solver.
    split; [done|]; split; [done|]; eexists; split; [done|set_solver].
  - unfold NewHSMSMessageRejectReq in H.
    apply bind_Ok in H as (h & [Hl Hi]%setSystemBytes_inv & [= <-]). simpl.
    rewrite Hl, !Hi by lia. case_bool_decide; simpl;
      (split; [done|]; split; [done|]; eexists; split; [done|set_solver]).
  - unfold NewHSMSMessageSeparateReq in H.
    apply bind_Ok in H as (h & [Hl Hi]%setSystemBytes_inv & [= <-]). simpl.
    rewrite Hl, !Hi by lia. split; [done|]; split; [done|]; eexists; split; [done|set_solver].
Qed.

(** The control-message half of the HSMS round trip: every control
    message returned by one of the eight factory methods is decoded from
    its bytes with the identical header. *)
Lemma Parse_ControlMessage_ToBytes (msg : ControlMessage) :
  constructed msg →
  Parse (ControlMessage_ToBytes msg) = Ok (Some (ControlMsg msg)).
Proof.
  intros (Hl & H4 & sType & H5 & Hs)%constructed_header.
  destruct msg as [h]. by eapply Parse_control.
Qed.

(** ** Ellipsis expansion *)

(** C8. The item [<L <A var> varNode ...>], built by the factory
    methods, filled with the map from [...] to 1: with enough fuel (8
    suffices) [FillVariables] returns a list of size 4 in which the two
    slots before the ellipsis appear twice and the names carry the repeat
    index, so that the variables are var[0], varNode[0], var[1],
    varNode[1], in this order. *)
Theorem FillVariables_ellipsis_once (fuel : nat) :
  (8 ≤ fuel)%nat →
  ∃ filled,
    (node ← example_list; FillVariables fuel node {["..." := AInt Tint 1]}) = Ok filled
    ∧ filled =
        ListNode
          [ASCIINode EmptyString (mkAsciiNodeVariable "var[0]" 0 (-1)) false;
           emptyItemNode;
           ASCIINode EmptyString (mkAsciiNodeVariable "var[1]" 0 (-1)) false;
           emptyItemNode]
          (<["varNode[0]" := 1%nat]> {["varNode[1]" := 3%nat]})
    ∧ Size filled = 4
    ∧ Variables filled = ["var[0]"; "varNode[0]"; "var[1]"; "varNode[1]"].
Proof.
  intros Hfuel. replace fuel with (8 + (fuel - 8))%nat by lia.
  generalize (fuel - 8)%nat. intros k.
  eexists. split; [vm_compute; reflexivity|].
  split; [vm_compute; reflexivity|]. split; vm_compute; reflexivity.
Qed.

Lemma FillVariables_ellipsis_once_witness :
  ∃ filled,
    (node ← example_list; FillVariables 8 node {["..." := AInt Tint 1]}) = Ok filled
    ∧ filled =
        ListNode
          [ASCIINode EmptyString (mkAsciiNodeVariable "var[0]" 0 (-1)) false;
           emptyItemNode;
           ASCIINode EmptyString (mkAsciiNodeVariable "var[1]" 0 (-1)) false;
           emptyItemNode]
          (<["varNode[0]" := 1%nat]> {["varNode[1]" := 3%nat]})
    ∧ Size filled = 4
    ∧ Variables filled = ["var[0]"; "varNode[0]"; "var[1]"; "varNode[1]"].
Proof. apply (FillVariables_ellipsis_once 8). lia. Defined.

(** ** Reject.req construction *)

(** C5 (as amended). [NewHSMSMessageRejectReq] does not test the reason
    code: for every reason code, zero included, every session id of 16
    bits and every slice of at least four system bytes, construction
    succeeds; the header has 10 bytes, SType (byte 5) is 7, PType (byte 4)
    is 0, byte 2 is the supplied pType when the reason code is 2 and the
    supplied sType otherwise, byte 3 is the reason code, bytes 0-1 are the
    session id in big-endian order and bytes 6-9 are the first four system
    bytes. *)
Theorem NewHSMSMessageRejectReq_header
    (sessionID pType sType reasonCode : Z) (systemBytes : list Z) :
  0 ≤ sessionID < 65536 →
  (4 ≤ length systemBytes)%nat →
  ∃ msg,
    NewHSMSMessageRejectReq sessionID pType sType systemBytes reasonCode = Ok msg
    ∧ length (header msg) = 10%nat
    ∧ header msg !! 5%nat = Some 7
    ∧ header msg !! 4%nat = Some 0
    ∧ header msg !! 2%nat = Some (if bool_decide (reasonCode = 2) then pType else sType)
    ∧ header msg !! 3%nat = Some reasonCode
    ∧ BigEndian (take 2 (header msg)) = sessionID
    ∧ drop 6 (header msg) = take 4 systemBytes.
Proof.
  intros Hs Hlen. unfold NewHSMSMessageRejectReq.
  destruct (setSystemBytes_Ok
    (<[5%nat:=sTypeRejectReq]> (<[3%nat:=reasonCode]>
      (if bool_decide (reasonCode = 2)
       then <[2%nat:=pType]> (<[1%nat:=byte sessionID]>
              (<[0%nat:=byte (sessionID ≫ 8)]> (make_bytes 10)))
       else <[2%nat:=sType]> (<[1%nat:=byte sessionID]>
              (<[0%nat:=byte (sessionID ≫ 8)]> (make_bytes 10))))))
    systemBytes Hlen) as (b0 & b1 & b2 & b3 & Htake & ->).
  eexists. split; [reflexivity|]. simpl.
  rewrite Htake.
  case_bool_decide; simpl; repeat split; try reflexivity.
  all: unfold BigEndian, byte; simpl; rewrite Z.shiftr_div_pow2 by lia;
    change (2 ^ 8) with 256; rewrite (Z.mod_small (sessionID `div` 256)) by
      (split; [apply Z.div_pos; lia | apply Z.div_lt_upper_bound; lia]);
    pose proof (Z.div_mod sessionID 256); lia.
Qed.

Lemma NewHSMSMessageRejectReq_header_witness :
  ∃ msg,
    NewHSMSMessageRejectReq 4660 0 9 [252; 253; 254; 255] 3 = Ok msg
    ∧ length (header msg) = 10%nat
    ∧ header msg !! 5%nat = Some 7
    ∧ header msg !! 4%nat = Some 0
    ∧ header msg !! 2%nat = Some (if bool_decide (3 = 2) then 0 else 9)
    ∧ header msg !! 3%nat = Some 3
    ∧ BigEndian (take 2 (header msg)) = 4660
    ∧ drop 6 (header msg) = take 4 [252; 253; 254; 255].
Proof.
  apply (NewHSMSMessageRejectReq_header 4660 0 9 3 [252; 253; 254; 255]);
    [lia | simpl; lia].
Defined.

(** C5, counterexample: a reject.req with reason code 0 is constructed
    like any other. *)
Lemma NewHSMSMessageRejectReq_reason_zero :
  NewHSMSMessageRejectReq 1 0 8 [0; 0; 0; 1] 0
  = Ok (mkControlMessage [0; 1; 8; 0; 0; 7; 0; 0; 0; 1]).
Proof. reflexivity. Qed.

(** ** Printed form of an ASCII variable *)

Lemma string_app_assoc (s1 s2 s3 : string) :
  (s1 +:+ s2) +:+ s3 = s1 +:+ s2 +:+ s3.
Proof.
  induction s1 as [|a s1 IH]; [done|].
  change (String a ((s1 +:+ s2) +:+ s3) = String a (s1 +:+ s2 +:+ s3)).
  by rewrite IH.
Qed.

(** C6 (as amended). An ASCII item in variable mode with bounds
    (min, max) prints as [<A] decoration, a space, the variable name and
    [>], where the decoration is: none when (min, max) = (0, -1); [[k]]
    when min = max = k; [[k..]] when max = -1 and min > 0; [[0..k]] when
    min = 0 and max = k > 0 (there is no [[..k]] form); and [[k..m]] in
    every other case. *)
Theorem ASCIINode_String_variable (v : string) (min max : Z) (value : string) :
  let printed := ASCIINode_String value (mkAsciiNodeVariable v min max) false in
  (min = 0 ∧ max = -1 → printed = "<A " +:+ v +:+ ">")
  ∧ (min = max → printed = "<A[" +:+ pretty max +:+ "] " +:+ v +:+ ">")
  ∧ (max = -1 ∧ min > 0 → printed = "<A[" +:+ pretty min +:+ "..] " +:+ v +:+ ">")
  ∧ (min = 0 ∧ max > 0 →
     printed = "<A[0.." +:+ pretty max +:+ "] " +:+ v +:+ ">")
  ∧ (min ≠ max ∧ max ≠ -1 ∧ min ≠ 0 →
     printed = "<A[" +:+ pretty min +:+ ".." +:+ pretty max +:+ "] " +:+ v +:+ ">").
Proof.
  unfold ASCIINode_String; simpl.
  repeat split; intros; destruct_and?; subst;
    repeat (case_bool_decide; simpl; try lia);
    rewrite ?string_app_assoc; reflexivity.
Qed.

(** C6, counterexample: with bounds (0, 5) the decoration is [[0..5]],
    not [[..5]]. *)
Lemma ASCIINode_String_min_zero :
  ASCIINode_String EmptyString (mkAsciiNodeVariable "var" 0 5) false = "<A[0..5] var>"
  ∧ ASCIINode_String EmptyString (mkAsciiNodeVariable "var" 0 5) false ≠ "<A[..5] var>".
Proof. split; [reflexivity | discriminate]. Qed.
